(** * discord-vscode: the activity assembler ([src/activity.ts])

    A shallow embedding of [activity], [details] and [fileDetails], together
    with the ECMAScript string and number built-ins they call, and the
    properties of the rich-presence payload that follow from the code. *)

From Stdlib Require Import ZArith List Bool Ascii String Lia DecimalString.
From Stdlib Require Import Floats.SpecFloat.
Import ListNotations.

Open Scope string_scope.
Open Scope Z_scope.

(** ** ECMAScript strings

    A string is a sequence of code units; a code unit is an [ascii]
    character here.  The functions below follow the algorithms of the
    standard: [String.prototype.includes], [replace] with a string pattern
    (first occurrence only, replacement patterns expanded by
    [GetSubstitution]), [split], [padEnd] and [Array.prototype.join]. *)
Module JS.

Fixpoint startsWith (pat s : string) : bool :=
  match pat, s with
  | EmptyString, _ => true
  | String _ _, EmptyString => false
  | String a pat', String b s' => if Ascii.eqb a b then startsWith pat' s' else false
  end.

Fixpoint drop (n : nat) (s : string) : string :=
  match n, s with
  | O, _ => s
  | S _, EmptyString => EmptyString
  | S n', String _ s' => drop n' s'
  end.

Fixpoint take (n : nat) (s : string) : string :=
  match n, s with
  | O, _ => EmptyString
  | S _, EmptyString => EmptyString
  | S n', String c s' => String c (take n' s')
  end.

(** [StringIndexOf(s, pat, 0)]: the least position at which [pat] occurs. *)
Fixpoint indexOf (s pat : string) : option nat :=
  if startsWith pat s then Some O
  else match s with
       | EmptyString => None
       | String _ s' => option_map S (indexOf s' pat)
       end.

Definition includes (s pat : string) : bool :=
  match indexOf s pat with
  | Some _ => true
  | None => false
  end.

(** [GetSubstitution] for a string pattern: there are no captures, so only
    [$$], [$&], [$`] and [$'] are replacement patterns; every other
    character, a lone [$] included, stands for itself. *)
Fixpoint GetSubstitution (matched before after template : string) : string :=
  match template with
  | EmptyString => EmptyString
  | String c rest =>
      if Ascii.eqb c "$" then
        match rest with
        | String d rest' =>
            if Ascii.eqb d "$" then String "$" (GetSubstitution matched before after rest')
            else if Ascii.eqb d "&" then matched ++ GetSubstitution matched before after rest'
            else if Ascii.eqb d "`" then before ++ GetSubstitution matched before after rest'
            else if Ascii.eqb d "'" then after ++ GetSubstitution matched before after rest'
            else String c (GetSubstitution matched before after rest)
        | EmptyString => String c EmptyString
        end
      else String c (GetSubstitution matched before after rest)
  end.

(** [String.prototype.replace(pat, value)] with a string [pat]. *)
Definition replace (s pat value : string) : string :=
  match indexOf s pat with
  | None => s
  | Some pos =>
      let before := take pos s in
      let after := drop (pos + String.length pat) s in
      before ++ GetSubstitution pat before after value ++ after
  end.

(** [split] with a non-empty separator always yields at least one piece. *)
Fixpoint split_go (fuel : nat) (sep s : string) : list string :=
  match fuel with
  | O => [s]
  | S fuel' =>
      match indexOf s sep with
      | None => [s]
      | Some pos => take pos s :: split_go fuel' sep (drop (pos + String.length sep) s)
      end
  end.

Fixpoint chars (s : string) : list string :=
  match s with
  | EmptyString => []
  | String c s' => String c EmptyString :: chars s'
  end.

Definition split (s sep : string) : list string :=
  match sep with
  | EmptyString => chars s
  | _ => split_go (String.length s) sep s
  end.

Fixpoint join (l : list string) (sep : string) : string :=
  match l with
  | [] => EmptyString
  | [x] => x
  | x :: rest => x ++ sep ++ join rest sep
  end.

(** [s.padEnd(n, fill)]: [fill] is repeated, and cut, to make up the
    missing length. *)
Fixpoint repeat_to (n : nat) (fill cur : string) : string :=
  match n with
  | O => EmptyString
  | S n' =>
      match cur with
      | String c cur' => String c (repeat_to n' fill cur')
      | EmptyString =>
          match fill with
          | String c fill' => String c (repeat_to n' fill fill')
          | EmptyString => EmptyString
          end
      end
  end.

Definition padEnd (s : string) (n : nat) (fill : string) : string :=
  let len := String.length s in
  if Nat.leb n len then s else s ++ repeat_to (n - len) fill fill.

(** Decimal digits of an integer-valued number ([Number::toString]). *)
Definition Z_toString (z : Z) : string := NilZero.string_of_int (Z.to_int z).

End JS.

(** ** ECMAScript numbers

    A number is an IEEE 754 binary64 value; [spec_float] with the
    operations of [SpecFloat] at precision 53 is its bit-exact model. *)
Module Number.

Definition prec : Z := 53.
Definition emax : Z := 1024.

Definition number := spec_float.

(** The number nearest to an integer. *)
Definition of_Z (z : Z) : number := binary_normalize prec emax z 0 false.

Definition div (x y : number) : number := SFdiv prec emax x y.

(** [x > y] *)
Definition gt (x y : number) : bool := SFltb y x.

Definition thousand : number := of_Z 1000.

(** [floor (m * 2^e)] for [0 < m]. *)
Definition floor_scaled (m e : Z) : Z :=
  if 0 <=? e then m * 2 ^ e else m / 2 ^ (- e).

Definition two_digits (b : Z) : string :=
  (if b <? 10 then "0" else "") ++ JS.Z_toString b.

(** [Number.prototype.toFixed(2)].  The integer [n] for which [n / 100 - x]
    is closest to zero, the larger one at a tie, is [floor (100 x + 1/2)];
    its decimal digits get a point before the last two.  From [10^21] on the
    standard hands over to [Number::toString], whose exponent notation is
    left to the runtime ([big]). *)
Definition toFixed2 (big : number -> string) (x : number) : string :=
  match x with
  | S754_nan => "NaN"
  | S754_infinity s => if s then "-Infinity" else "Infinity"
  | S754_zero _ => "0.00"
  | S754_finite s m e =>
      if 10 ^ 21 <=? floor_scaled (Zpos m) e then
        (if s then "-" else "") ++ big (S754_finite false m e)
      else
        let n := floor_scaled (200 * Zpos m + 2 ^ (- e)) (e - 1) in
        (if s then "-" else "") ++ JS.Z_toString (n / 100) ++ "." ++ two_digits (n mod 100)
  end.

End Number.

(** *** Vocabulary for binary64 values *)

(** The canonical exponent of a value of magnitude [k] ([fexp] at
    precision 53). *)
Definition fexp64 (k : Z) : Z := Z.max (k - 53) (-1074).

(** The binary exponent of a finite number. *)
Definition expo (x : Number.number) : Z :=
  match x with
  | S754_finite _ _ e => e
  | _ => -1074
  end.

(** Zero, or positive and finite with a mantissa of at most 53 bits. *)
Definition fin53 (x : Number.number) : Prop :=
  match x with
  | S754_zero _ => True
  | S754_finite false m e => Z.pos m < 2 ^ 53 /\ e <= 971
  | _ => False
  end.


(** [x] divided by 1000, [k] times over. *)
Fixpoint divisions (k : nat) (x : Number.number) : Number.number :=
  match k with
  | O => x
  | S k' => divisions k' (Number.div x Number.thousand)
  end.

(** ** Outcomes of an asynchronous function

    A call returns a value, rejects with an exception, or never settles. *)
Inductive exn := TypeError | FileSystemError.

Inductive outcome (A : Type) :=
| Returns (a : A)
| Throws (e : exn)
| Diverges.

Arguments Returns {A} a.
Arguments Throws {A} e.
Arguments Diverges {A}.

Definition bind {A B} (x : outcome A) (k : A -> outcome B) : outcome B :=
  match x with
  | Returns a => k a
  | Throws e => Throws e
  | Diverges => Diverges
  end.

Notation "x <- c ;; k" := (bind c (fun x => k))
  (at level 61, c at next level, right associativity).

(** ** The host editor (module [vscode]) *)

Module TextDocument.
Record t := {
  fileName : string;
  languageId : string;
  lineCount : Z;
  uri : string
}.
End TextDocument.

Record Position := { line : Z; character : Z }.

Record Selection := { active : Position }.

Record TextEditor := { document : TextDocument.t; selection : Selection }.

Record WorkspaceFolder := { folder_name : string }.

(** The API of the [vscode.git] extension ([./git]). *)
Module Git.
Record Remote := { fetchUrl : option string }.
Record Branch := { name : option string }.
Record RepositoryState := { HEAD : option Branch; remotes : list Remote }.
Record RepositoryUIState := { selected : bool }.
Record Repository := { state : RepositoryState; ui : RepositoryUIState }.
Record API := { repositories : list Repository }.
End Git.

(** What one call reads from the host: [env], [debug], [window],
    [workspace] and [extensions].  [fs_stat] is [None] where the promise of
    [workspace.fs.stat] rejects; [git] is
    [extensions.getExtension('vscode.git')?.exports.getAPI(1)]. *)
Record Host := {
  appName : string;
  activeDebugSession : bool;
  activeTextEditor : option TextEditor;
  workspace_name : option string;
  getWorkspaceFolder : string -> option WorkspaceFolder;
  asRelativePath : string -> string;
  fs_stat : string -> option Z;
  git : option Git.API
}.

(** Built-ins of the runtime that depend on the platform or the locale:
    module [path], [Number.prototype.toLocaleString], and [Number::toString]
    from [10^21] on. *)
Record Runtime := {
  sep : string;
  basename : string -> string;
  parse_dir : string -> string;
  toLocaleString : Z -> string;
  exponentToString : Number.number -> string
}.

(** [Object.prototype.toLocaleString] calls [toString], which for an
    ordinary object is ["[object Object]"]. *)
Definition Object_toLocaleString {A : Type} (_ : A) : string := "[object Object]".

(** ** [./constants] and [./util]

    The exports of both files are parameters of the development: the
    properties hold whatever the constants are and whatever the helpers
    compute. *)
Inductive CONFIG_KEYS :=
| DetailsIdling | DetailsEditing | DetailsDebugging
| LowerDetailsIdling | LowerDetailsEditing | LowerDetailsDebugging
| LowerDetailsNoWorkspaceFound
| LargeImageIdling | LargeImage | SmallImage.

Definition Config := CONFIG_KEYS -> string.

Module REPLACE_KEYS.
Record t := {
  Empty : string;
  FileName : string;
  DirName : string;
  FullDirName : string;
  Workspace : string;
  WorkspaceFolder : string;
  WorkspaceAndFolder : string;
  LanguageLowerCase : string;
  LanguageTitleCase : string;
  LanguageUpperCase : string;
  TotalLines : string;
  CurrentLine : string;
  CurrentColumn : string;
  FileSize : string;
  AppName : string;
  GitRepoName : string;
  GitBranch : string
}.
End REPLACE_KEYS.

Record Constants := {
  KEYS : REPLACE_KEYS.t;
  DEBUG_IMAGE_KEY : string;
  EMPTY : string;
  FILE_SIZES : list string;
  IDLE_IMAGE_KEY : string;
  UNKNOWN_GIT_BRANCH : string;
  UNKNOWN_GIT_REPO_NAME : string;
  VSCODE_IMAGE_KEY : string;
  VSCODE_INSIDERS_IMAGE_KEY : string
}.

Record Util := {
  resolveFileIcon : TextDocument.t -> string;
  toLower : string -> string;
  toTitle : string -> string;
  toUpper : string -> string
}.

Module ActivityPayload.
Record t := {
  details : option string;
  state : option string;
  startTimestamp : option Z;
  largeImageKey : option string;
  largeImageText : option string;
  smallImageKey : option string;
  smallImageText : option string;
  partyId : option string;
  partySize : option Z;
  partyMax : option Z;
  matchSecret : option string;
  joinSecret : option string;
  spectateSecret : option string;
  instance : option bool
}.
End ActivityPayload.

(** The default argument [{}] of [activity]. *)
Definition no_payload : ActivityPayload.t :=
  {| ActivityPayload.details := None;
     ActivityPayload.state := None;
     ActivityPayload.startTimestamp := None;
     ActivityPayload.largeImageKey := None;
     ActivityPayload.largeImageText := None;
     ActivityPayload.smallImageKey := None;
     ActivityPayload.smallImageText := None;
     ActivityPayload.partyId := None;
     ActivityPayload.partySize := None;
     ActivityPayload.partyMax := None;
     ActivityPayload.matchSecret := None;
     ActivityPayload.joinSecret := None;
     ActivityPayload.spectateSecret := None;
     ActivityPayload.instance := None |}.

(** ** The program *)
Section Activity.

Variable K : Constants.
Variable rt : Runtime.
Variable util : Util.

(** [getConfig()] *)
Variable config : Config.

Variable host : Host.

Local Abbreviation keys := (KEYS K).

(** The loop [while (size > 1000) { currentDivision++; size /= 1000; }].
    Every division lowers the binary exponent, so [scale_fuel] rounds are
    more than any finite number takes; only an infinite [size] uses
    them up, and the loop does not end on it. *)
Fixpoint scale (fuel : nat) (size : Number.number) (currentDivision : nat)
  : option (Number.number * nat) :=
  if Number.gt size Number.thousand then
    match fuel with
    | O => None
    | S fuel' => scale fuel' (Number.div size Number.thousand) (S currentDivision)
    end
  else Some (size, currentDivision).

Definition scale_fuel : nat := 256.

(** [`${...}${FILE_SIZES[currentDivision]}`]: an index past the end of the
    table reads [undefined]. *)
Definition file_size_unit (currentDivision : nat) : string :=
  nth currentDivision (FILE_SIZES K) "undefined".

(** The text put in place of the file-size token, lines 157-172. *)
Definition file_size_text (originalSize : Z) : outcome string :=
  let size := Number.of_Z originalSize in
  if Number.gt size Number.thousand then
    match scale scale_fuel (Number.div size Number.thousand) 1 with
    | Some (size', currentDivision) =>
        Returns (Number.toFixed2 (exponentToString rt) size' ++ file_size_unit currentDivision)
    | None => Diverges
    end
  else Returns (JS.Z_toString originalSize ++ file_size_unit 0).

(** [git.repositories.find((repo) => repo.ui.selected)] *)
Definition selected_repository (api : Git.API) : option Git.Repository :=
  find (fun repo => Git.selected (Git.ui repo)) (Git.repositories api).

(** [...?.state.HEAD?.name ?? EMPTY] *)
Definition git_branch_name (api : Git.API) : string :=
  match selected_repository api with
  | None => EMPTY K
  | Some repo =>
      match Git.HEAD (Git.state repo) with
      | None => EMPTY K
      | Some head =>
          match Git.name head with
          | None => EMPTY K
          | Some n => n
          end
      end
  end.

(** [...?.state.remotes[0].fetchUrl?.split('/')[1].replace('.git', '') ?? EMPTY]:
    [remotes[0]] and [split('/')[1]] are read without [?.], so a property
    access on [undefined] throws. *)
Definition git_repo_name (api : Git.API) : outcome string :=
  match selected_repository api with
  | None => Returns (EMPTY K)
  | Some repo =>
      match Git.remotes (Git.state repo) with
      | [] => Throws TypeError
      | remote :: _ =>
          match Git.fetchUrl remote with
          | None => Returns (EMPTY K)
          | Some url =>
              match nth_error (JS.split url "/") 1 with
              | None => Throws TypeError
              | Some part => Returns (JS.replace part ".git" "")
              end
          end
      end
  end.

(** [git?.repositories.length] is truthy. *)
Definition has_repositories : option Git.API :=
  match git host with
  | Some api => match Git.repositories api with [] => None | _ :: _ => Some api end
  | None => None
  end.

(** The six blocks of [fileDetails], lines 144-198. *)
Definition totalLines_step (raw : string) (document : TextDocument.t) : string :=
  if JS.includes raw (REPLACE_KEYS.TotalLines keys)
  then JS.replace raw (REPLACE_KEYS.TotalLines keys) (Object_toLocaleString document)
  else raw.

Definition currentLine_step (raw : string) (selection : Selection) : string :=
  if JS.includes raw (REPLACE_KEYS.CurrentLine keys)
  then JS.replace raw (REPLACE_KEYS.CurrentLine keys)
         (toLocaleString rt (line (active selection) + 1))
  else raw.

Definition currentColumn_step (raw : string) (selection : Selection) : string :=
  if JS.includes raw (REPLACE_KEYS.CurrentColumn keys)
  then JS.replace raw (REPLACE_KEYS.CurrentColumn keys)
         (toLocaleString rt (character (active selection) + 1))
  else raw.

Definition fileSize_step (raw : string) (document : TextDocument.t) : outcome string :=
  if JS.includes raw (REPLACE_KEYS.FileSize keys) then
    match fs_stat host (TextDocument.uri document) with
    | None => Throws FileSystemError
    | Some size =>
        text <- file_size_text size ;;
        Returns (JS.replace raw (REPLACE_KEYS.FileSize keys) text)
    end
  else Returns raw.

Definition gitBranch_step (raw : string) : string :=
  if JS.includes raw (REPLACE_KEYS.GitBranch keys) then
    match has_repositories with
    | Some api => JS.replace raw (REPLACE_KEYS.GitBranch keys) (git_branch_name api)
    | None => JS.replace raw (REPLACE_KEYS.GitBranch keys) (UNKNOWN_GIT_BRANCH K)
    end
  else raw.

Definition gitRepoName_step (raw : string) : outcome string :=
  if JS.includes raw (REPLACE_KEYS.GitRepoName keys) then
    match has_repositories with
    | Some api =>
        repo <- git_repo_name api ;;
        Returns (JS.replace raw (REPLACE_KEYS.GitRepoName keys) repo)
    | None => Returns (JS.replace raw (REPLACE_KEYS.GitRepoName keys) (UNKNOWN_GIT_REPO_NAME K))
    end
  else Returns raw.

Definition fileDetails (_raw : string) (document : TextDocument.t) (selection : Selection)
  : outcome string :=
  let raw := _raw in
  let raw := totalLines_step raw document in
  let raw := currentLine_step raw selection in
  let raw := currentColumn_step raw selection in
  raw <- fileSize_step raw document ;;
  let raw := gitBranch_step raw in
  gitRepoName_step raw.

(** [split[split.length - 1]], then used as a replacement value. *)
Definition last_piece (split : list string) : string := last split "undefined".

(** Lines 98-133 of [details]: the template of the mode, filled in. *)
Definition fill (editor : TextEditor) (template : string) : outcome string :=
  let fileName := basename rt (TextDocument.fileName (document editor)) in
  let dir := parse_dir rt (TextDocument.fileName (document editor)) in
  let split := JS.split dir (sep rt) in
  let dirName := last_piece split in
  let noWorkspaceFound :=
    JS.replace (config LowerDetailsNoWorkspaceFound) (REPLACE_KEYS.Empty keys) (EMPTY K) in
  let workspaceFolder := getWorkspaceFolder host (TextDocument.uri (document editor)) in
  let workspaceFolderName :=
    match workspaceFolder with
    | Some folder => folder_name folder
    | None => noWorkspaceFound
    end in
  let workspaceName :=
    match workspace_name host with
    | Some n => n
    | None => workspaceFolderName
    end in
  let workspaceAndFolder :=
    workspaceName ++
    (if String.eqb workspaceFolderName (EMPTY K) then "" else " - " ++ workspaceFolderName) in
  let fileIcon := resolveFileIcon util (document editor) in
  let raw := template in
  let raw :=
    match workspaceFolder with
    | Some folder =>
        let relativePath :=
          removelast (JS.split (asRelativePath host (TextDocument.fileName (document editor))) (sep rt)) in
        JS.replace raw (REPLACE_KEYS.FullDirName keys)
          (folder_name folder ++ sep rt ++ JS.join relativePath (sep rt))
    | None => raw
    end in
  raw <- fileDetails raw (document editor) (selection editor) ;;
  Returns
    (JS.replace
      (JS.replace
        (JS.replace
          (JS.replace
            (JS.replace
              (JS.replace
                (JS.replace
                  (JS.replace raw (REPLACE_KEYS.FileName keys) fileName)
                  (REPLACE_KEYS.DirName keys) dirName)
                (REPLACE_KEYS.Workspace keys) workspaceName)
              (REPLACE_KEYS.WorkspaceFolder keys) workspaceFolderName)
            (REPLACE_KEYS.WorkspaceAndFolder keys) workspaceAndFolder)
          (REPLACE_KEYS.LanguageLowerCase keys) (toLower util fileIcon))
        (REPLACE_KEYS.LanguageTitleCase keys) (toTitle util fileIcon))
      (REPLACE_KEYS.LanguageUpperCase keys) (toUpper util fileIcon)).

Definition details (idling editing debugging : CONFIG_KEYS) : outcome string :=
  let raw := JS.replace (config idling) (REPLACE_KEYS.Empty keys) (EMPTY K) in
  match activeTextEditor host with
  | Some editor =>
      let raw := if activeDebugSession host then config debugging else config editing in
      fill editor raw
  | None => Returns raw
  end.

(** [previous] is the payload of the call before, [now] what [Date.now()]
    would answer. *)
Definition activity (previous : ActivityPayload.t) (now : Z) : outcome ActivityPayload.t :=
  let appName := appName host in
  let defaultSmallImageKey :=
    if activeDebugSession host then DEBUG_IMAGE_KEY K
    else if JS.includes appName "Insiders" then VSCODE_INSIDERS_IMAGE_KEY K
    else VSCODE_IMAGE_KEY K in
  d <- details DetailsIdling DetailsEditing DetailsDebugging ;;
  s <- details LowerDetailsIdling LowerDetailsEditing LowerDetailsDebugging ;;
  let state0 :=
    {| ActivityPayload.details := Some d;
       ActivityPayload.state := Some s;
       ActivityPayload.startTimestamp :=
         Some (match ActivityPayload.startTimestamp previous with
               | Some t => t
               | None => now
               end);
       ActivityPayload.largeImageKey := Some (IDLE_IMAGE_KEY K);
       ActivityPayload.largeImageText := Some (config LargeImageIdling);
       ActivityPayload.smallImageKey := Some defaultSmallImageKey;
       ActivityPayload.smallImageText :=
         Some (JS.replace (config SmallImage) (REPLACE_KEYS.AppName keys) appName);
       ActivityPayload.partyId := None;
       ActivityPayload.partySize := None;
       ActivityPayload.partyMax := None;
       ActivityPayload.matchSecret := None;
       ActivityPayload.joinSecret := None;
       ActivityPayload.spectateSecret := None;
       ActivityPayload.instance := None |} in
  match activeTextEditor host with
  | Some editor =>
      if String.eqb (TextDocument.languageId (document editor)) "Log" then Returns state0
      else
        let largeImageKey' := resolveFileIcon util (document editor) in
        let largeImageText' :=
          JS.padEnd
            (JS.replace
              (JS.replace
                (JS.replace (config LargeImage)
                  (REPLACE_KEYS.LanguageLowerCase keys) (toLower util largeImageKey'))
                (REPLACE_KEYS.LanguageTitleCase keys) (toTitle util largeImageKey'))
              (REPLACE_KEYS.LanguageUpperCase keys) (toUpper util largeImageKey'))
            2 (EMPTY K) in
        d' <- details DetailsIdling DetailsEditing DetailsDebugging ;;
        s' <- details LowerDetailsIdling LowerDetailsEditing LowerDetailsDebugging ;;
        Returns
          {| ActivityPayload.details := Some d';
             ActivityPayload.state := Some s';
             ActivityPayload.startTimestamp := ActivityPayload.startTimestamp state0;
             ActivityPayload.largeImageKey := Some largeImageKey';
             ActivityPayload.largeImageText := Some largeImageText';
             ActivityPayload.smallImageKey := ActivityPayload.smallImageKey state0;
             ActivityPayload.smallImageText := ActivityPayload.smallImageText state0;
             ActivityPayload.partyId := ActivityPayload.partyId state0;
             ActivityPayload.partySize := ActivityPayload.partySize state0;
             ActivityPayload.partyMax := ActivityPayload.partyMax state0;
             ActivityPayload.matchSecret := ActivityPayload.matchSecret state0;
             ActivityPayload.joinSecret := ActivityPayload.joinSecret state0;
             ActivityPayload.spectateSecret := ActivityPayload.spectateSecret state0;
             ActivityPayload.instance := ActivityPayload.instance state0 |}
  | None => Returns state0
  end.

End Activity.

Arguments activity K rt util config host previous now : simpl never.

(** Calls that hand the payload of one on to the next: [later p q] when
    [q] is returned by a call, some calls after [p] was. *)
Inductive later (K : Constants) (rt : Runtime) (util : Util)
  : ActivityPayload.t -> ActivityPayload.t -> Prop :=
| later_call config host now p q :
    activity K rt util config host p now = Returns q -> later K rt util p q
| later_more config host now p q r :
    later K rt util p q ->
    activity K rt util config host q now = Returns r -> later K rt util p r.

(** ** A concrete instance

    Values for the parameters, used to run the definitions: the placeholder
    tokens in braces, POSIX paths, a locale without digit grouping. *)
Module Sample.

Definition keys : REPLACE_KEYS.t :=
  {| REPLACE_KEYS.Empty := "{empty}";
     REPLACE_KEYS.FileName := "{file_name}";
     REPLACE_KEYS.DirName := "{dir_name}";
     REPLACE_KEYS.FullDirName := "{full_dir_name}";
     REPLACE_KEYS.Workspace := "{workspace}";
     REPLACE_KEYS.WorkspaceFolder := "{workspace_folder}";
     REPLACE_KEYS.WorkspaceAndFolder := "{workspace_and_folder}";
     REPLACE_KEYS.LanguageLowerCase := "{lang}";
     REPLACE_KEYS.LanguageTitleCase := "{Lang}";
     REPLACE_KEYS.LanguageUpperCase := "{LANG}";
     REPLACE_KEYS.TotalLines := "{total_lines}";
     REPLACE_KEYS.CurrentLine := "{current_line}";
     REPLACE_KEYS.CurrentColumn := "{current_column}";
     REPLACE_KEYS.FileSize := "{file_size}";
     REPLACE_KEYS.AppName := "{app_name}";
     REPLACE_KEYS.GitRepoName := "{git_repo_name}";
     REPLACE_KEYS.GitBranch := "{git_branch}" |}.

Definition constants : Constants :=
  {| KEYS := keys;
     DEBUG_IMAGE_KEY := "debug";
     EMPTY := "  ";
     FILE_SIZES := [" bytes"; "kb"; "mb"; "gb"; "tb"];
     IDLE_IMAGE_KEY := "vscode-big";
     UNKNOWN_GIT_BRANCH := "Unknown";
     UNKNOWN_GIT_REPO_NAME := "Unknown";
     VSCODE_IMAGE_KEY := "vscode";
     VSCODE_INSIDERS_IMAGE_KEY := "vscode-insiders" |}.

Definition runtime : Runtime :=
  {| sep := "/";
     basename := fun path => last (JS.split path "/") "";
     parse_dir := fun path => JS.join (removelast (JS.split path "/")) "/";
     toLocaleString := JS.Z_toString;
     exponentToString := fun _ => "1e+21" |}.

Definition util : Util :=
  {| resolveFileIcon := TextDocument.languageId;
     toLower := fun s => s;
     toTitle := fun s => s;
     toUpper := fun s => s |}.

Definition config : Config := fun key =>
  match key with
  | DetailsIdling => "Idling"
  | DetailsEditing => "Editing {file_name}"
  | DetailsDebugging => "Debugging {file_name}"
  | LowerDetailsIdling => "Idling"
  | LowerDetailsEditing => "Workspace: {workspace}"
  | LowerDetailsDebugging => "Debugging: {workspace}"
  | LowerDetailsNoWorkspaceFound => "No workspace"
  | LargeImageIdling => "Idling"
  | LargeImage => "Editing a {LANG} file"
  | SmallImage => "{app_name}"
  end.

Definition doc : TextDocument.t :=
  {| TextDocument.fileName := "/home/u/project/src/main.ts";
     TextDocument.languageId := "typescript";
     TextDocument.lineCount := 42;
     TextDocument.uri := "file:///home/u/project/src/main.ts" |}.

Definition editor : TextEditor :=
  {| document := doc;
     selection := {| active := {| line := 4; character := 9 |} |} |}.

(** A host with nothing open: no editor, no debug session, no workspace,
    no git extension. *)
Definition idle : Host :=
  {| appName := "Visual Studio Code";
     activeDebugSession := false;
     activeTextEditor := None;
     workspace_name := None;
     getWorkspaceFolder := fun _ => None;
     asRelativePath := fun path => path;
     fs_stat := fun _ => None;
     git := None |}.

(** [main.ts] open in the folder [project]; the file has 1,500,000 bytes. *)
Definition editing : Host :=
  {| appName := "Visual Studio Code";
     activeDebugSession := false;
     activeTextEditor := Some editor;
     workspace_name := Some "project";
     getWorkspaceFolder := fun _ => Some {| folder_name := "project" |};
     asRelativePath := fun _ => "src/main.ts";
     fs_stat := fun _ => Some 1500000;
     git := None |}.

Definition debugging : Host :=
  {| appName := appName editing;
     activeDebugSession := true;
     activeTextEditor := activeTextEditor editing;
     workspace_name := workspace_name editing;
     getWorkspaceFolder := getWorkspaceFolder editing;
     asRelativePath := asRelativePath editing;
     fs_stat := fs_stat editing;
     git := git editing |}.

Definition run (config : Config) (host : Host) :=
  activity constants runtime util config host.

End Sample.

(** ** Vocabulary of the properties *)

(** A replacement value without [$] is inserted as it is. *)
Fixpoint dollar_free (s : string) : bool :=
  match s with
  | EmptyString => true
  | String c rest => negb (Ascii.eqb c "$") && dollar_free rest
  end.

(** The tokens [fileDetails] looks for, in the order of its blocks. *)
Definition scanned_tokens (K : Constants) : list string :=
  [ REPLACE_KEYS.TotalLines (KEYS K);
    REPLACE_KEYS.CurrentLine (KEYS K);
    REPLACE_KEYS.CurrentColumn (KEYS K);
    REPLACE_KEYS.FileSize (KEYS K);
    REPLACE_KEYS.GitBranch (KEYS K);
    REPLACE_KEYS.GitRepoName (KEYS K) ].

(** The tokens [details] replaces itself, around its call of [fileDetails]. *)
Definition folded_tokens (K : Constants) : list string :=
  [ REPLACE_KEYS.FullDirName (KEYS K);
    REPLACE_KEYS.FileName (KEYS K);
    REPLACE_KEYS.DirName (KEYS K);
    REPLACE_KEYS.Workspace (KEYS K);
    REPLACE_KEYS.WorkspaceFolder (KEYS K);
    REPLACE_KEYS.WorkspaceAndFolder (KEYS K);
    REPLACE_KEYS.LanguageLowerCase (KEYS K);
    REPLACE_KEYS.LanguageTitleCase (KEYS K);
    REPLACE_KEYS.LanguageUpperCase (KEYS K) ].

(** No token of the list occurs in [raw]. *)
Definition free_of (tokens : list string) (raw : string) : bool :=
  forallb (fun token => negb (JS.includes raw token)) tokens.

(** The template [details] picks while an editor is open. *)
Definition mode_template (config : Config) (host : Host) (editing debugging : CONFIG_KEYS)
  : string :=
  if activeDebugSession host then config debugging else config editing.

(** The first occurrence of [pat] gives way to [value], taken literally. *)
Definition replace_first (s pat value : string) : string :=
  match JS.indexOf s pat with
  | None => s
  | Some pos => JS.take pos s ++ value ++ JS.drop (pos + String.length pat) s
  end.

(** Every occurrence of [pat], from left to right, gives way to [value]. *)
Fixpoint replace_every (fuel : nat) (s pat value : string) : string :=
  match fuel with
  | O => s
  | S fuel' =>
      match JS.indexOf s pat with
      | None => s
      | Some pos =>
          JS.take pos s ++ value
          ++ replace_every fuel' (JS.drop (pos + String.length pat) s) pat value
      end
  end.

(** A template with, for each token of the list in turn, its first
    occurrence replaced by the value that goes with it. *)
Definition substitute_first (pairs : list (string * string)) (raw : string) : string :=
  fold_left (fun r pair => replace_first r (fst pair) (snd pair)) pairs raw.

(** The same with every occurrence of each token replaced. *)
Definition substitute_every (pairs : list (string * string)) (raw : string) : string :=
  fold_left (fun r pair => replace_every (String.length r) r (fst pair) (snd pair)) pairs raw.

(** The values [fileDetails] computes for its tokens. *)
Definition size_value (K : Constants) (rt : Runtime) (host : Host) (doc : TextDocument.t)
  : outcome string :=
  match fs_stat host (TextDocument.uri doc) with
  | None => Throws FileSystemError
  | Some size => file_size_text K rt size
  end.

Definition branch_value (K : Constants) (host : Host) : string :=
  match has_repositories host with
  | Some api => git_branch_name K api
  | None => UNKNOWN_GIT_BRANCH K
  end.

Definition repo_value (K : Constants) (host : Host) : outcome string :=
  match has_repositories host with
  | Some api => git_repo_name K api
  | None => Returns (UNKNOWN_GIT_REPO_NAME K)
  end.

(** The tokens scanned after total-lines, each with its value. *)
Definition token_values (K : Constants) (rt : Runtime) (host : Host) (sel : Selection)
    (size repo : string) : list (string * string) :=
  [ (REPLACE_KEYS.CurrentLine (KEYS K), toLocaleString rt (line (active sel) + 1));
    (REPLACE_KEYS.CurrentColumn (KEYS K), toLocaleString rt (character (active sel) + 1));
    (REPLACE_KEYS.FileSize (KEYS K), size);
    (REPLACE_KEYS.GitBranch (KEYS K), branch_value K host);
    (REPLACE_KEYS.GitRepoName (KEYS K), repo) ].

Definition with_lineCount (doc : TextDocument.t) (n : Z) : TextDocument.t :=
  {| TextDocument.fileName := TextDocument.fileName doc;
     TextDocument.languageId := TextDocument.languageId doc;
     TextDocument.lineCount := n;
     TextDocument.uri := TextDocument.uri doc |}.

(** The three ways for the git lookups to find nothing, each with the
    texts that then stand in for branch and repository name. *)
Inductive git_fallback (K : Constants) (host : Host) : string -> string -> Prop :=
| no_integration :
    git host = None ->
    git_fallback K host (UNKNOWN_GIT_BRANCH K) (UNKNOWN_GIT_REPO_NAME K)
| no_repositories api :
    git host = Some api ->
    Git.repositories api = [] ->
    git_fallback K host (UNKNOWN_GIT_BRANCH K) (UNKNOWN_GIT_REPO_NAME K)
| nothing_selected api :
    git host = Some api ->
    Git.repositories api <> [] ->
    (forall repo, In repo (Git.repositories api) -> Git.selected (Git.ui repo) = false) ->
    git_fallback K host (EMPTY K) (EMPTY K).

(** The stat of the open document answers, with a size a number can hold. *)
Definition stat_answers (host : Host) : Prop :=
  match activeTextEditor host with
  | Some editor =>
      exists size,
        fs_stat host (TextDocument.uri (document editor)) = Some size
        /\ 0 <= size < 2 ^ 1023
  | None => True
  end.

(** The selected repository, if there is one, has a first remote, and the
    fetch URL of that remote, if it has one, has a second piece after a
    slash. *)
Definition first_remote_usable (host : Host) : bool :=
  match has_repositories host with
  | Some api =>
      match selected_repository api with
      | Some repo =>
          match Git.remotes (Git.state repo) with
          | [] => false
          | remote :: _ =>
              match Git.fetchUrl remote with
              | None => true
              | Some url =>
                  match nth_error (JS.split url "/") 1 with
                  | Some _ => true
                  | None => false
                  end
              end
          end
      | None => true
      end
  | None => true
  end.

(** Payloads and hosts the properties are run on. *)
Module Cases.

Definition idle_payload : ActivityPayload.t :=
  {| ActivityPayload.details := Some "Idling";
     ActivityPayload.state := Some "Idling";
     ActivityPayload.startTimestamp := Some 1700000000000;
     ActivityPayload.largeImageKey := Some "vscode-big";
     ActivityPayload.largeImageText := Some "Idling";
     ActivityPayload.smallImageKey := Some "vscode";
     ActivityPayload.smallImageText := Some "Visual Studio Code";
     ActivityPayload.partyId := None;
     ActivityPayload.partySize := None;
     ActivityPayload.partyMax := None;
     ActivityPayload.matchSecret := None;
     ActivityPayload.joinSecret := None;
     ActivityPayload.spectateSecret := None;
     ActivityPayload.instance := None |}.

(** A debug session with no editor open. *)
Definition debugging_no_editor : Host :=
  {| appName := "Visual Studio Code";
     activeDebugSession := true;
     activeTextEditor := None;
     workspace_name := None;
     getWorkspaceFolder := fun _ => None;
     asRelativePath := fun path => path;
     fs_stat := fun _ => None;
     git := None |}.

Definition log_doc : TextDocument.t :=
  {| TextDocument.fileName := "/home/u/project/out/server.log";
     TextDocument.languageId := "Log";
     TextDocument.lineCount := 7;
     TextDocument.uri := "file:///home/u/project/out/server.log" |}.

Definition log_editor : TextEditor :=
  {| document := log_doc;
     selection := {| active := {| line := 0; character := 0 |} |} |}.

(** A log file open in the editor. *)
Definition viewing_log : Host :=
  {| appName := "Visual Studio Code";
     activeDebugSession := false;
     activeTextEditor := Some log_editor;
     workspace_name := None;
     getWorkspaceFolder := fun _ => None;
     asRelativePath := fun path => path;
     fs_stat := fun _ => Some 500;
     git := None |}.

Definition repository (sel : bool) (branch : option string) (urls : list (option string))
  : Git.Repository :=
  {| Git.state :=
       {| Git.HEAD := Some {| Git.name := branch |};
          Git.remotes := map (fun url => {| Git.fetchUrl := url |}) urls |};
     Git.ui := {| Git.selected := sel |} |}.

Definition with_git (host : Host) (repositories : list Git.Repository) : Host :=
  {| appName := appName host;
     activeDebugSession := activeDebugSession host;
     activeTextEditor := activeTextEditor host;
     workspace_name := workspace_name host;
     getWorkspaceFolder := getWorkspaceFolder host;
     asRelativePath := asRelativePath host;
     fs_stat := fs_stat host;
     git := Some {| Git.repositories := repositories |} |}.

(** The git extension knows a repository, but none is selected. *)
Definition none_selected : Host :=
  with_git Sample.editing
    [repository false (Some "main") [Some "https://github.com/u/project.git"]].

(** The selected repository has no remote yet. *)
Definition no_remote : Host :=
  with_git Sample.editing [repository true (Some "main") []].

(** The selected repository has a remote without fetch URL. *)
Definition no_fetch_url : Host :=
  with_git Sample.editing [repository true (Some "main") [None]].

(** A selected repository with branch and remote. *)
Definition cloned : Host :=
  with_git Sample.editing
    [repository true (Some "main") [Some "git@github.com:u/project.git"]].

(** A document that is not on disk: the stat is rejected. *)
Definition unsaved : Host :=
  {| appName := "Visual Studio Code";
     activeDebugSession := false;
     activeTextEditor := Some Sample.editor;
     workspace_name := None;
     getWorkspaceFolder := fun _ => None;
     asRelativePath := fun path => path;
     fs_stat := fun _ => None;
     git := None |}.


Definition size_config : Config := fun key =>
  match key with
  | DetailsEditing => "{file_name} ({file_size})"
  | _ => Sample.config key
  end.

Definition repo_config : Config := fun key =>
  match key with
  | LowerDetailsEditing => "{git_repo_name} on {git_branch}"
  | _ => Sample.config key
  end.

Definition branch_config : Config := fun key =>
  match key with
  | LowerDetailsEditing => "on {git_branch}"
  | _ => Sample.config key
  end.

End Cases.

(** ** Vocabulary of the further properties *)

(** Lines 67-70 of [activity]: the large-image text before padding. *)
Definition large_image_text (K : Constants) (util : Util) (config : Config)
    (doc : TextDocument.t) : string :=
  let icon := resolveFileIcon util doc in
  JS.replace
    (JS.replace
      (JS.replace (config LargeImage)
        (REPLACE_KEYS.LanguageLowerCase (KEYS K)) (toLower util icon))
      (REPLACE_KEYS.LanguageTitleCase (KEYS K)) (toTitle util icon))
    (REPLACE_KEYS.LanguageUpperCase (KEYS K)) (toUpper util icon).

(** Lines 41-45: the small image of the payload. *)
Definition small_image_key (K : Constants) (host : Host) : string :=
  if activeDebugSession host then DEBUG_IMAGE_KEY K
  else if JS.includes (appName host) "Insiders" then VSCODE_INSIDERS_IMAGE_KEY K
  else VSCODE_IMAGE_KEY K.

(** [repo.state.HEAD?.name ?? EMPTY] for one repository. *)
Definition head_name (K : Constants) (repo : Git.Repository) : string :=
  match Git.HEAD (Git.state repo) with
  | Some head =>
      match Git.name head with
      | Some n => n
      | None => EMPTY K
      end
  | None => EMPTY K
  end.

(** The pieces of [s] between the occurrences of the character [c]. *)
Fixpoint pieces (c : ascii) (s : string) : list string :=
  match s with
  | EmptyString => [EmptyString]
  | String a s' =>
      if Ascii.eqb a c then EmptyString :: pieces c s'
      else match pieces c s' with
           | piece :: rest => String a piece :: rest
           | [] => [String a EmptyString]
           end
  end.

(** The values [details] computes for its own tokens, lines 98-109. *)
Definition dir_name (rt : Runtime) (editor : TextEditor) : string :=
  last_piece (JS.split (parse_dir rt (TextDocument.fileName (document editor))) (sep rt)).

Definition no_workspace_text (K : Constants) (config : Config) : string :=
  JS.replace (config LowerDetailsNoWorkspaceFound) (REPLACE_KEYS.Empty (KEYS K)) (EMPTY K).

Definition folder_shown (K : Constants) (config : Config) (host : Host) (editor : TextEditor)
  : string :=
  match getWorkspaceFolder host (TextDocument.uri (document editor)) with
  | Some folder => folder_name folder
  | None => no_workspace_text K config
  end.

Definition workspace_shown (K : Constants) (config : Config) (host : Host)
    (editor : TextEditor) : string :=
  match workspace_name host with
  | Some n => n
  | None => folder_shown K config host editor
  end.

Definition workspace_and_folder (K : Constants) (config : Config) (host : Host)
    (editor : TextEditor) : string :=
  workspace_shown K config host editor
  ++ (if String.eqb (folder_shown K config host editor) (EMPTY K) then ""
      else " - " ++ folder_shown K config host editor).

(** Lines 118-121: the folder name, a separator, and the relative path
    without its last piece. *)
Definition full_dir_name (rt : Runtime) (host : Host) (editor : TextEditor)
    (folder : WorkspaceFolder) : string :=
  folder_name folder ++ sep rt
  ++ JS.join
       (removelast
          (JS.split (asRelativePath host (TextDocument.fileName (document editor))) (sep rt)))
       (sep rt).

(** The tokens replaced after [fileDetails], lines 125-133, in order, each
    with its value. *)
Definition folded_values (K : Constants) (rt : Runtime) (util : Util) (config : Config)
    (host : Host) (editor : TextEditor) : list (string * string) :=
  [ (REPLACE_KEYS.FileName (KEYS K), basename rt (TextDocument.fileName (document editor)));
    (REPLACE_KEYS.DirName (KEYS K), dir_name rt editor);
    (REPLACE_KEYS.Workspace (KEYS K), workspace_shown K config host editor);
    (REPLACE_KEYS.WorkspaceFolder (KEYS K), folder_shown K config host editor);
    (REPLACE_KEYS.WorkspaceAndFolder (KEYS K), workspace_and_folder K config host editor);
    (REPLACE_KEYS.LanguageLowerCase (KEYS K),
     toLower util (resolveFileIcon util (document editor)));
    (REPLACE_KEYS.LanguageTitleCase (KEYS K),
     toTitle util (resolveFileIcon util (document editor)));
    (REPLACE_KEYS.LanguageUpperCase (KEYS K),
     toUpper util (resolveFileIcon util (document editor))) ].

(** One [replace] after the other. *)
Definition replace_each (pairs : list (string * string)) (raw : string) : string :=
  fold_left (fun r pair => JS.replace r (fst pair) (snd pair)) pairs raw.

Module More.

(** An Insiders build with a debug session and a file open. *)
Definition insiders_debugging : Host :=
  {| appName := "Visual Studio Code - Insiders";
     activeDebugSession := true;
     activeTextEditor := Some Sample.editor;
     workspace_name := None;
     getWorkspaceFolder := fun _ => None;
     asRelativePath := fun path => path;
     fs_stat := fun _ => Some 2048;
     git := None |}.

(** A payload as a caller may hand it in, with fields [activity] never
    writes. *)
Definition joined : ActivityPayload.t :=
  {| ActivityPayload.details := Some "Playing";
     ActivityPayload.state := Some "In a party";
     ActivityPayload.startTimestamp := Some 1700000000000;
     ActivityPayload.largeImageKey := Some "game";
     ActivityPayload.largeImageText := None;
     ActivityPayload.smallImageKey := None;
     ActivityPayload.smallImageText := None;
     ActivityPayload.partyId := Some "party";
     ActivityPayload.partySize := Some 2;
     ActivityPayload.partyMax := Some 4;
     ActivityPayload.matchSecret := Some "m";
     ActivityPayload.joinSecret := Some "j";
     ActivityPayload.spectateSecret := Some "s";
     ActivityPayload.instance := Some true |}.

(** A configuration whose large-image text is a single character. *)
Definition short_config : Config := fun key =>
  match key with
  | LargeImage => "!"
  | _ => Sample.config key
  end.

(** Three repositories: the first is not selected, the next two are. *)
Definition three_repositories : Host :=
  Cases.with_git Sample.editing
    [ Cases.repository false (Some "dev") [Some "git@example.org:u/first.git"];
      Cases.repository true (Some "main") [Some "https://example.org/u/second.git"];
      Cases.repository true (Some "other") [Some "git@example.org:u/third.git"] ].

(** A file open outside of any workspace. *)
Definition loose_file : Host :=
  {| appName := "Visual Studio Code";
     activeDebugSession := false;
     activeTextEditor := Some Sample.editor;
     workspace_name := None;
     getWorkspaceFolder := fun _ => None;
     asRelativePath := fun path => path;
     fs_stat := fun _ => Some 2048;
     git := None |}.

(** A folder open without a named workspace. *)
Definition folder_only : Host :=
  {| appName := "Visual Studio Code";
     activeDebugSession := false;
     activeTextEditor := Some Sample.editor;
     workspace_name := None;
     getWorkspaceFolder := fun _ => Some {| folder_name := "project" |};
     asRelativePath := fun _ => "main.ts";
     fs_stat := fun _ => Some 2048;
     git := None |}.

(** The no-workspace text is the empty-value token. *)
Definition empty_config : Config := fun key =>
  match key with
  | LowerDetailsNoWorkspaceFound => "{empty}"
  | _ => Sample.config key
  end.

(** A file whose name is a replacement pattern. *)
Definition pattern_doc : TextDocument.t :=
  {| TextDocument.fileName := "/home/u/project/src/[$&].ts";
     TextDocument.languageId := "typescript";
     TextDocument.lineCount := 1;
     TextDocument.uri := "file:///home/u/project/src/[$&].ts" |}.

Definition pattern_editor : TextEditor :=
  {| document := pattern_doc;
     selection := {| active := {| line := 0; character := 0 |} |} |}.

Definition pattern_host : Host :=
  {| appName := "Visual Studio Code";
     activeDebugSession := false;
     activeTextEditor := Some pattern_editor;
     workspace_name := None;
     getWorkspaceFolder := fun _ => None;
     asRelativePath := fun path => path;
     fs_stat := fun _ => None;
     git := None |}.

End More.

(** * Properties *)

(** ** The model on concrete inputs *)

Example replace_first_only :
  JS.replace "a{x}b{x}c" "{x}" "1" = "a1b{x}c".
Proof. reflexivity. Qed.

Example replace_pattern_amp :
  JS.replace "a{x}b" "{x}" "<$&>" = "a<{x}>b".
Proof. reflexivity. Qed.

Example split_path : JS.split "/home/u/project" "/" = [""; "home"; "u"; "project"].
Proof. reflexivity. Qed.

Example padEnd_ex : JS.padEnd "a" 4 "xy" = "axyx".
Proof. reflexivity. Qed.

Example Z_toString_ex : JS.Z_toString 500 = "500" /\ JS.Z_toString 0 = "0".
Proof. split; reflexivity. Qed.

Example thousand_bits : Number.thousand = S754_finite false 8796093022208000 (-43).
Proof. reflexivity. Qed.

Example toFixed2_exact :
  Number.toFixed2 (fun _ => "") (Number.div (Number.div (Number.of_Z 1500000) Number.thousand) Number.thousand)
  = "1.50".
Proof. vm_compute. reflexivity. Qed.

(** 1.005 is not a binary64 value: the quotient lies below it and is
    rendered "1.00", as every engine does. *)
Example toFixed2_1005 :
  Number.toFixed2 (fun _ => "") (Number.div (Number.of_Z 1005) Number.thousand) = "1.00".
Proof. vm_compute. reflexivity. Qed.

Example toFixed2_small :
  Number.toFixed2 (fun _ => "") (Number.div (Number.of_Z 1) Number.thousand) = "0.00"
  /\ Number.toFixed2 (fun _ => "") (Number.div (Number.of_Z 1234567) Number.thousand) = "1234.57"
  /\ Number.toFixed2 (fun _ => "") (Number.div (Number.of_Z 1999) Number.thousand) = "2.00".
Proof. vm_compute. repeat split; reflexivity. Qed.

Example sample_idle :
  Sample.run Sample.config Sample.idle no_payload 1700000000000 =
  Returns
    {| ActivityPayload.details := Some "Idling";
       ActivityPayload.state := Some "Idling";
       ActivityPayload.startTimestamp := Some 1700000000000;
       ActivityPayload.largeImageKey := Some "vscode-big";
       ActivityPayload.largeImageText := Some "Idling";
       ActivityPayload.smallImageKey := Some "vscode";
       ActivityPayload.smallImageText := Some "Visual Studio Code";
       ActivityPayload.partyId := None;
       ActivityPayload.partySize := None;
       ActivityPayload.partyMax := None;
       ActivityPayload.matchSecret := None;
       ActivityPayload.joinSecret := None;
       ActivityPayload.spectateSecret := None;
       ActivityPayload.instance := None |}.
Proof. vm_compute. reflexivity. Qed.

Example sample_editing :
  Sample.run Sample.config Sample.editing no_payload 1700000000000 =
  Returns
    {| ActivityPayload.details := Some "Editing main.ts";
       ActivityPayload.state := Some "Workspace: project";
       ActivityPayload.startTimestamp := Some 1700000000000;
       ActivityPayload.largeImageKey := Some "typescript";
       ActivityPayload.largeImageText := Some "Editing a typescript file";
       ActivityPayload.smallImageKey := Some "vscode";
       ActivityPayload.smallImageText := Some "Visual Studio Code";
       ActivityPayload.partyId := None;
       ActivityPayload.partySize := None;
       ActivityPayload.partyMax := None;
       ActivityPayload.matchSecret := None;
       ActivityPayload.joinSecret := None;
       ActivityPayload.spectateSecret := None;
       ActivityPayload.instance := None |}.
Proof. vm_compute. reflexivity. Qed.

Example sample_fileDetails :
  fileDetails Sample.constants Sample.runtime Sample.editing
    "{current_line}:{current_column} {file_size} {git_branch}"
    Sample.doc (selection Sample.editor)
  = Returns "5:10 1.50mb Unknown".
Proof. vm_compute. reflexivity. Qed.

(** ** Strings *)
Module JSFacts.


Lemma drop_add n k s : JS.drop (n + k) s = JS.drop k (JS.drop n s).
Proof.
  revert s; induction n as [|n IH]; intros s; simpl; [reflexivity|].
  destruct s; simpl; [destruct k; reflexivity | apply IH].
Qed.

Lemma take_drop n s : s = JS.take n s ++ JS.drop n s.
Proof.
  revert s; induction n as [|n IH]; intros [|c s]; simpl; try reflexivity.
  f_equal; apply IH.
Qed.


(** ... and it is the first one. *)
Lemma indexOf_first s pat pos :
  JS.indexOf s pat = Some pos ->
  forall i, (i < pos)%nat -> JS.startsWith pat (JS.drop i s) = false.
Proof.
  revert pos; induction s as [|c s IH]; intros pos; simpl.
  - destruct (JS.startsWith pat ""); [|discriminate]. intros [= <-] i Hi; lia.
  - destruct (JS.startsWith pat (String c s)) eqn:E.
    + intros [= <-] i Hi; lia.
    + destruct (JS.indexOf s pat) as [n|] eqn:En; simpl; [|discriminate].
      intros [= <-] [|i] Hi; simpl; [exact E|].
      apply (IH n); [reflexivity | lia].
Qed.

Lemma replace_absent s pat value :
  JS.includes s pat = false -> JS.replace s pat value = s.
Proof.
  unfold JS.includes, JS.replace. destruct (JS.indexOf s pat); [discriminate | reflexivity].
Qed.

Lemma GetSubstitution_plain matched before after value :
  dollar_free value = true -> JS.GetSubstitution matched before after value = value.
Proof.
  induction value as [|c value IH]; simpl; [reflexivity|].
  destruct (Ascii.eqb c "$"); simpl; [discriminate|].
  intros H; f_equal; auto.
Qed.

(** A value without [$] takes the place of the first occurrence. *)
Lemma replace_present s pat value pos :
  JS.indexOf s pat = Some pos ->
  dollar_free value = true ->
  JS.replace s pat value = JS.take pos s ++ value ++ JS.drop (pos + String.length pat) s.
Proof.
  intros Hpos Hval. unfold JS.replace. rewrite Hpos.
  rewrite GetSubstitution_plain by assumption. reflexivity.
Qed.





End JSFacts.

(** ** Outcomes *)

Lemma bind_Returns {A B} (x : outcome A) (k : A -> outcome B) b :
  bind x k = Returns b -> exists a, x = Returns a /\ k a = Returns b.
Proof. destruct x; simpl; intros H; [eauto | discriminate | discriminate]. Qed.

Ltac invert_bind H :=
  let a := fresh "a" in
  let Ha := fresh "Ha" in
  apply bind_Returns in H; destruct H as (a & Ha & H).

(** ** The start timestamp *)

Lemma activity_startTimestamp K rt util config host previous now p :
  activity K rt util config host previous now = Returns p ->
  ActivityPayload.startTimestamp p =
  Some (match ActivityPayload.startTimestamp previous with
        | Some t => t
        | None => now
        end).
Proof.
  unfold activity. intros H.
  invert_bind H. invert_bind H.
  destruct (activeTextEditor host) as [editor|].
  - destruct (String.eqb _ _).
    + injection H as <-. reflexivity.
    + invert_bind H. invert_bind H. injection H as <-. reflexivity.
  - injection H as <-. reflexivity.
Qed.

Lemma later_startTimestamp K rt util p q t :
  later K rt util p q ->
  ActivityPayload.startTimestamp p = Some t ->
  ActivityPayload.startTimestamp q = Some t.
Proof.
  induction 1 as [config host now p q Hcall | config host now p q r Hpq IH Hcall]; intros Hp.
  - rewrite (activity_startTimestamp _ _ _ _ _ _ _ _ Hcall), Hp. reflexivity.
  - rewrite (activity_startTimestamp _ _ _ _ _ _ _ _ Hcall), (IH Hp). reflexivity.
Qed.

(** C1.  The payload a call returns carries the [startTimestamp] of the
    payload passed in when that has one, and the current time otherwise;
    so along calls that pass the payload on, the timestamp never goes
    back. *)
Theorem startTimestamp_carried K rt util config host previous now p :
  activity K rt util config host previous now = Returns p ->
  ActivityPayload.startTimestamp p =
    Some (match ActivityPayload.startTimestamp previous with
          | Some t => t
          | None => now
          end)
  /\ forall q, later K rt util p q ->
       exists t u,
         ActivityPayload.startTimestamp p = Some t
         /\ ActivityPayload.startTimestamp q = Some u
         /\ t <= u.
Proof.
  intros Hcall. pose proof (activity_startTimestamp _ _ _ _ _ _ _ _ Hcall) as Hp.
  split; [exact Hp|].
  intros q Hq. eexists; eexists.
  split; [exact Hp|]. split; [exact (later_startTimestamp _ _ _ _ _ _ Hq Hp) | lia].
Qed.

Lemma startTimestamp_carried_witness :
  Sample.run Sample.config Sample.idle no_payload 1700000000000 = Returns Cases.idle_payload
  /\ ActivityPayload.startTimestamp Cases.idle_payload = Some 1700000000000
  /\ forall q, later Sample.constants Sample.runtime Sample.util Cases.idle_payload q ->
       exists t u,
         ActivityPayload.startTimestamp Cases.idle_payload = Some t
         /\ ActivityPayload.startTimestamp q = Some u
         /\ t <= u.
Proof.
  assert (H : Sample.run Sample.config Sample.idle no_payload 1700000000000
              = Returns Cases.idle_payload) by (vm_compute; reflexivity).
  split; [exact H|].
  exact (startTimestamp_carried Sample.constants Sample.runtime Sample.util Sample.config
           Sample.idle no_payload 1700000000000 Cases.idle_payload H).
Defined.

(** ** The mode *)

Lemma fill_config K rt util config config' host editor template :
  config' LowerDetailsNoWorkspaceFound = config LowerDetailsNoWorkspaceFound ->
  fill K rt util config' host editor template = fill K rt util config host editor template.
Proof. unfold fill. intros ->. reflexivity. Qed.

Lemma details_no_editor K rt util config host idling editing debugging :
  activeTextEditor host = None ->
  details K rt util config host idling editing debugging =
  Returns (JS.replace (config idling) (REPLACE_KEYS.Empty (KEYS K)) (EMPTY K)).
Proof. unfold details. intros ->. reflexivity. Qed.

Lemma details_editor K rt util config host idling editing debugging editor :
  activeTextEditor host = Some editor ->
  details K rt util config host idling editing debugging =
  fill K rt util config host editor (mode_template config host editing debugging).
Proof. unfold details, mode_template. intros ->. reflexivity. Qed.

(** C7.  With no active editor the call returns, and title and subtitle
    are the idle templates (with the empty-value token filled in), whether
    a debug session runs or not. *)
Theorem idle_templates_without_editor K rt util config host previous now :
  activeTextEditor host = None ->
  exists p,
    activity K rt util config host previous now = Returns p
    /\ ActivityPayload.details p =
       Some (JS.replace (config DetailsIdling) (REPLACE_KEYS.Empty (KEYS K)) (EMPTY K))
    /\ ActivityPayload.state p =
       Some (JS.replace (config LowerDetailsIdling) (REPLACE_KEYS.Empty (KEYS K)) (EMPTY K)).
Proof.
  intros Hed. unfold activity.
  rewrite !(details_no_editor _ _ _ _ _ _ _ _ Hed). simpl. rewrite Hed.
  eexists. split; [reflexivity|]. split; reflexivity.
Qed.

Lemma idle_templates_without_editor_witness :
  activeTextEditor Cases.debugging_no_editor = None
  /\ exists p,
       Sample.run Sample.config Cases.debugging_no_editor no_payload 5 = Returns p
       /\ ActivityPayload.details p = Some "Idling"
       /\ ActivityPayload.state p = Some "Idling".
Proof.
  split; [reflexivity|].
  exact (idle_templates_without_editor Sample.constants Sample.runtime Sample.util
           Sample.config Cases.debugging_no_editor no_payload 5 eq_refl).
Defined.

Lemma mode_template_debugging config host editing debugging :
  activeDebugSession host = true ->
  mode_template config host editing debugging = config debugging.
Proof. unfold mode_template. intros ->. reflexivity. Qed.

(** C8.  With an editor open and a debug session active, title and
    subtitle of a returned payload are the debugging templates filled in;
    the call returns whenever both can be filled; and the editing (and
    idle) templates have no influence on the outcome at all. *)
Theorem debugging_templates_with_editor K rt util config host previous now editor :
  activeTextEditor host = Some editor ->
  activeDebugSession host = true ->
  (forall p,
      activity K rt util config host previous now = Returns p ->
      exists d s,
        fill K rt util config host editor (config DetailsDebugging) = Returns d
        /\ fill K rt util config host editor (config LowerDetailsDebugging) = Returns s
        /\ ActivityPayload.details p = Some d
        /\ ActivityPayload.state p = Some s)
  /\ (forall d s,
      fill K rt util config host editor (config DetailsDebugging) = Returns d ->
      fill K rt util config host editor (config LowerDetailsDebugging) = Returns s ->
      exists p, activity K rt util config host previous now = Returns p)
  /\ (forall config' : Config,
      (forall key,
          key <> DetailsEditing -> key <> LowerDetailsEditing ->
          key <> DetailsIdling -> key <> LowerDetailsIdling ->
          config' key = config key) ->
      activity K rt util config' host previous now
      = activity K rt util config host previous now).
Proof.
  intros Hed Hdbg. split; [|split].
  - intros p H. unfold activity in H.
    rewrite !(details_editor _ _ _ _ _ _ _ _ _ Hed) in H.
    rewrite !(mode_template_debugging _ _ _ _ Hdbg) in H.
    invert_bind H. invert_bind H. rewrite Hed in H.
    exists a, a0. split; [assumption|]. split; [assumption|].
    destruct (String.eqb _ _).
    + injection H as <-. split; reflexivity.
    + rewrite Ha, Ha0 in H. simpl in H. injection H as <-. split; reflexivity.
  - intros d s Hd Hs. unfold activity.
    rewrite !(details_editor _ _ _ _ _ _ _ _ _ Hed).
    rewrite !(mode_template_debugging _ _ _ _ Hdbg).
    rewrite Hd, Hs. simpl. rewrite Hed.
    destruct (String.eqb _ _); eexists; reflexivity.
  - intros config' Hagree. unfold activity.
    rewrite !(details_editor _ _ _ _ _ _ _ _ _ Hed).
    rewrite !(mode_template_debugging _ _ _ _ Hdbg).
    rewrite !(fill_config K rt util config config') by (apply Hagree; discriminate).
    rewrite !(Hagree DetailsDebugging), !(Hagree LowerDetailsDebugging),
      !(Hagree LargeImageIdling), !(Hagree SmallImage), !(Hagree LargeImage)
      by discriminate.
    reflexivity.
Qed.

Lemma debugging_templates_with_editor_witness :
  exists p,
    Sample.run Sample.config Sample.debugging no_payload 5 = Returns p
    /\ ActivityPayload.details p = Some "Debugging main.ts"
    /\ ActivityPayload.state p = Some "Debugging: project".
Proof.
  destruct (debugging_templates_with_editor Sample.constants Sample.runtime Sample.util
              Sample.config Sample.debugging no_payload 5 Sample.editor eq_refl eq_refl)
    as (Hfrom & Hreturns & _).
  destruct (Hreturns "Debugging main.ts" "Debugging: project") as (p & Hp);
    [vm_compute; reflexivity | vm_compute; reflexivity |].
  exists p. split; [exact Hp|].
  destruct (Hfrom p Hp) as (d & s & Hd & Hs & Hpd & Hps).
  rewrite Hpd, Hps.
  assert (E1 : fill Sample.constants Sample.runtime Sample.util Sample.config Sample.debugging
                 Sample.editor (Sample.config DetailsDebugging) = Returns "Debugging main.ts")
    by (vm_compute; reflexivity).
  assert (E2 : fill Sample.constants Sample.runtime Sample.util Sample.config Sample.debugging
                 Sample.editor (Sample.config LowerDetailsDebugging) = Returns "Debugging: project")
    by (vm_compute; reflexivity).
  rewrite E1 in Hd. rewrite E2 in Hs.
  injection Hd as <-. injection Hs as <-. split; reflexivity.
Defined.

(** C10.  With a document of language id ['Log'] the call ends at the early
    [return]: the large image stays the idle one, while title and subtitle
    are the editing or debugging templates filled in, never the idle ones;
    the call fails exactly where filling them fails. *)
Theorem log_document_returns_early K rt util config host previous now editor :
  activeTextEditor host = Some editor ->
  TextDocument.languageId (document editor) = "Log" ->
  activity K rt util config host previous now =
  (d <- fill K rt util config host editor
          (mode_template config host DetailsEditing DetailsDebugging) ;;
   s <- fill K rt util config host editor
          (mode_template config host LowerDetailsEditing LowerDetailsDebugging) ;;
   Returns
     {| ActivityPayload.details := Some d;
        ActivityPayload.state := Some s;
        ActivityPayload.startTimestamp :=
          Some (match ActivityPayload.startTimestamp previous with
                | Some t => t
                | None => now
                end);
        ActivityPayload.largeImageKey := Some (IDLE_IMAGE_KEY K);
        ActivityPayload.largeImageText := Some (config LargeImageIdling);
        ActivityPayload.smallImageKey :=
          Some (if activeDebugSession host then DEBUG_IMAGE_KEY K
                else if JS.includes (appName host) "Insiders"
                     then VSCODE_INSIDERS_IMAGE_KEY K
                     else VSCODE_IMAGE_KEY K);
        ActivityPayload.smallImageText :=
          Some (JS.replace (config SmallImage) (REPLACE_KEYS.AppName (KEYS K)) (appName host));
        ActivityPayload.partyId := None;
        ActivityPayload.partySize := None;
        ActivityPayload.partyMax := None;
        ActivityPayload.matchSecret := None;
        ActivityPayload.joinSecret := None;
        ActivityPayload.spectateSecret := None;
        ActivityPayload.instance := None |}).
Proof.
  intros Hed Hlog. unfold activity.
  rewrite !(details_editor _ _ _ _ _ _ _ _ _ Hed).
  rewrite Hed, Hlog. reflexivity.
Qed.

Lemma log_document_returns_early_witness :
  exists p,
    Sample.run Sample.config Cases.viewing_log no_payload 5 = Returns p
    /\ ActivityPayload.details p = Some "Editing server.log"
    /\ ActivityPayload.state p = Some "Workspace: No workspace"
    /\ ActivityPayload.largeImageKey p = Some "vscode-big"
    /\ ActivityPayload.largeImageText p = Some "Idling".
Proof.
  unfold Sample.run.
  rewrite (log_document_returns_early Sample.constants Sample.runtime Sample.util
             Sample.config Cases.viewing_log no_payload 5 Cases.log_editor eq_refl eq_refl).
  eexists. split; [vm_compute; reflexivity|]. repeat split; reflexivity.
Defined.

(** ** Templates without tokens *)

Lemma free_of_cons token tokens raw :
  free_of (token :: tokens) raw = true ->
  JS.includes raw token = false /\ free_of tokens raw = true.
Proof.
  unfold free_of; simpl. intros H. apply andb_true_iff in H. destruct H as [H1 H2].
  apply negb_true_iff in H1. split; assumption.
Qed.

Ltac absent H :=
  repeat (let Hi := fresh "Habs" in
          apply free_of_cons in H; destruct H as [Hi H]).

(** C9.  A template in which none of the scanned tokens occurs comes back
    from [fileDetails] as it went in; if none of the tokens folded in by
    [details] occurs either, the whole filling leaves it unchanged. *)
Theorem fileDetails_token_free K rt host raw doc sel :
  free_of (scanned_tokens K) raw = true ->
  fileDetails K rt host raw doc sel = Returns raw
  /\ forall util config editor,
       free_of (folded_tokens K) raw = true ->
       fill K rt util config host editor raw = Returns raw.
Proof.
  intros H. unfold scanned_tokens in H. absent H.
  assert (Hfd : forall doc' sel',
             fileDetails K rt host raw doc' sel' = Returns raw).
  { intros doc' sel'. unfold fileDetails, totalLines_step, currentLine_step, currentColumn_step.
    rewrite Habs, Habs0, Habs1. unfold fileSize_step. rewrite Habs2. simpl.
    unfold gitBranch_step. rewrite Habs3. unfold gitRepoName_step. rewrite Habs4.
    reflexivity. }
  split; [apply Hfd|].
  intros util config editor H'. unfold folded_tokens in H'. absent H'.
  unfold fill.
  destruct (getWorkspaceFolder host (TextDocument.uri (document editor))) as [folder|];
    [rewrite (JSFacts.replace_absent raw (REPLACE_KEYS.FullDirName (KEYS K))) by assumption|];
    rewrite Hfd; simpl;
    repeat (rewrite (JSFacts.replace_absent raw) by assumption); reflexivity.
Qed.

Lemma fileDetails_token_free_witness :
  fileDetails Sample.constants Sample.runtime Sample.editing "Idling"
    Sample.doc (selection Sample.editor) = Returns "Idling"
  /\ forall util config editor,
       free_of (folded_tokens Sample.constants) "Idling" = true ->
       fill Sample.constants Sample.runtime util config Sample.editing editor "Idling"
       = Returns "Idling".
Proof.
  exact (fileDetails_token_free Sample.constants Sample.runtime Sample.editing "Idling"
           Sample.doc (selection Sample.editor) eq_refl).
Defined.

(** ** Binary64 arithmetic

    Bounds on the results of [SpecFloat]'s rounding and division, enough to
    follow the exponent of a number through the division loop. *)
Module NumberFacts.
Import Number.


Lemma digits2_size p : digits2_pos p = Pos.size p.
Proof. induction p; simpl; congruence. Qed.

Lemma Zdigits2_nonneg m : 0 <= Zdigits2 m.
Proof. destruct m; simpl; lia. Qed.

Lemma Zdigits2_upper m : 0 <= m -> m < 2 ^ Zdigits2 m.
Proof.
  destruct m as [|p|p]; simpl; intros H; [reflexivity | | lia].
  rewrite digits2_size. pose proof (Pos.size_gt p) as Hp.
  apply Pos2Z.pos_lt_pos in Hp. rewrite Pos2Z.inj_pow in Hp. exact Hp.
Qed.

Lemma Zdigits2_lower m : 0 < m -> 2 ^ (Zdigits2 m - 1) <= m.
Proof.
  destruct m as [|p|p]; unfold Zdigits2; intros H; try lia.
  rewrite digits2_size. pose proof (Pos.size_le p) as Hp.
  apply Pos2Z.pos_le_pos in Hp. rewrite Pos2Z.inj_pow in Hp.
  change (Z.pos p~0) with (2 * Z.pos p) in Hp.
  replace (Z.pos (Pos.size p)) with (Z.pos (Pos.size p) - 1 + 1) in Hp by lia.
  rewrite Z.pow_add_r in Hp by lia. change (2 ^ 1) with 2 in Hp. lia.
Qed.

Lemma Zdigits2_le m k : 0 <= m < 2 ^ k -> 0 <= k -> Zdigits2 m <= k.
Proof.
  intros [H0 Hk] Hk0.
  destruct (Z.eq_dec m 0) as [->|Hm]; [simpl; lia|].
  pose proof (Zdigits2_lower m ltac:(lia)) as Hl.
  destruct (Z_le_gt_dec (Zdigits2 m) k) as [|Hgt]; [assumption|exfalso].
  assert (2 ^ k <= 2 ^ (Zdigits2 m - 1)) by (apply Z.pow_le_mono_r; lia).
  lia.
Qed.

Lemma shr_1_m r : 0 <= shr_m r -> shr_m (shr_1 r) = shr_m r / 2.
Proof.
  destruct r as [m r s]; cbn [shr_m]. intros H.
  destruct m as [|[p|p|]|p]; cbn [shr_1 shr_m]; try lia; try reflexivity.
  - apply Z.div_unique with (r := 1); lia.
  - apply Z.div_unique with (r := 0); lia.
Qed.

Lemma iter_pos_shr_1 p : forall r,
  0 <= shr_m r -> shr_m (iter_pos shr_1 p r) = shr_m r / 2 ^ Zpos p.
Proof.
  assert (Hnn : forall r, 0 <= shr_m r -> forall q, 0 <= shr_m r / 2 ^ Z.pos q).
  { intros r Hr q. apply Z.div_pos; [assumption | apply Z.pow_pos_nonneg; lia]. }
  induction p as [p IH|p IH|]; intros r Hr; cbn [iter_pos].
  - assert (H1 : 0 <= shr_m (shr_1 r)) by (rewrite shr_1_m by assumption; apply Z.div_pos; lia).
    rewrite IH; rewrite IH by assumption; [|apply Hnn; assumption].
    rewrite shr_1_m by assumption.
    rewrite !Z.div_div by (try apply Z.pow_pos_nonneg; lia).
    f_equal. change (Z.pos p~1) with (2 * Z.pos p + 1).
    replace (2 * Z.pos p + 1) with (1 + Z.pos p + Z.pos p) by lia.
    rewrite !Z.pow_add_r by lia. change (2 ^ 1) with 2. ring.
  - rewrite IH; rewrite IH by assumption; [|apply Hnn; assumption].
    rewrite !Z.div_div by (try apply Z.pow_pos_nonneg; lia).
    f_equal. change (Z.pos p~0) with (2 * Z.pos p).
    replace (2 * Z.pos p) with (Z.pos p + Z.pos p) by lia.
    rewrite !Z.pow_add_r by lia. ring.
  - rewrite shr_1_m by assumption. reflexivity.
Qed.

Lemma shr_spec r e n r' e' :
  0 <= shr_m r -> shr r e n = (r', e') ->
  e' = e + Z.max 0 n /\ shr_m r' = shr_m r / 2 ^ Z.max 0 n.
Proof.
  intros Hr. unfold shr. destruct n as [|p|p]; intros [= <- <-].
  - simpl. rewrite Z.div_1_r. lia.
  - rewrite iter_pos_shr_1 by assumption. rewrite Z.max_r by lia. lia.
  - simpl. rewrite Z.div_1_r. lia.
Qed.

Lemma shr_record_of_loc_m m l : shr_m (shr_record_of_loc m l) = m.
Proof. destruct l as [|[]]; reflexivity. Qed.

Lemma fexp_64 k : fexp prec emax k = fexp64 k.
Proof. reflexivity. Qed.

(** [shr_fexp] moves the exponent up to the canonical one and divides the
    mantissa accordingly. *)
Lemma shr_fexp_spec m e l r' e' :
  0 <= m -> shr_fexp prec emax m e l = (r', e') ->
  e' = Z.max e (fexp64 (Zdigits2 m + e)) /\ shr_m r' = m / 2 ^ (e' - e).
Proof.
  intros Hm. unfold shr_fexp. rewrite fexp_64. intros H.
  apply shr_spec in H; [|rewrite shr_record_of_loc_m; assumption].
  rewrite shr_record_of_loc_m in H. destruct H as [-> ->].
  split; [lia|]. f_equal. f_equal. lia.
Qed.

Lemma round_nearest_even_bounds m l :
  m <= round_nearest_even m l <= m + 1.
Proof. destruct l as [|[]]; simpl; try lia. destruct (Z.even m); lia. Qed.

Lemma div_pow2_lt m a b : 0 <= m < 2 ^ (a + b) -> 0 <= a -> 0 <= b -> m / 2 ^ a < 2 ^ b.
Proof.
  intros [H0 H] Ha Hb. apply Z.div_lt_upper_bound; [apply Z.pow_pos_nonneg; lia|].
  rewrite <- Z.pow_add_r by lia. exact H.
Qed.

Lemma div_pow2_pos m a d : 2 ^ (d - 1) <= m -> 0 <= a < d -> 0 < m / 2 ^ a.
Proof.
  intros H Ha. apply Z.div_str_pos. split; [apply Z.pow_pos_nonneg; lia|].
  assert (2 ^ a <= 2 ^ (d - 1)) by (apply Z.pow_le_mono_r; lia). lia.
Qed.

Lemma Zdigits2_pos m : 0 < m -> 0 < Zdigits2 m.
Proof. destruct m; simpl; lia. Qed.

Lemma pow2_succ k : 0 <= k -> 2 ^ (k + 1) = 2 * 2 ^ k.
Proof. intros H. rewrite Z.pow_add_r by lia. change (2 ^ 1) with 2. ring. Qed.

(** Rounding a mantissa: the result is never NaN, keeps the sign, has a
    mantissa below [2^53] and an exponent bounded by the size of the value
    ([m * 2^e < 2^K]); it is zero only for a zero or tiny input. *)
Lemma binary_round_aux_bound sx m e l K :
  0 <= m < 2 ^ (K - e) -> -1074 <= e <= K ->
  match binary_round_aux prec emax sx m e l with
  | S754_zero s => s = sx /\ (m = 0 \/ e < -1021)
  | S754_finite s m' e' =>
      s = sx /\ Z.pos m' < 2 ^ 53 /\ e <= e' <= Z.max e (fexp64 (K + 1))
  | S754_infinity s => s = sx /\ 971 < Z.max e (fexp64 (K + 1))
  | S754_nan => False
  end.
Proof.
  intros [Hm0 HmK] [He HeK]. unfold binary_round_aux.
  destruct (shr_fexp prec emax m e l) as [r1 e1] eqn:H1.
  apply shr_fexp_spec in H1; [|assumption]. destruct H1 as [He1 Hm1].
  pose proof (Zdigits2_le m (K - e) (conj Hm0 HmK) ltac:(lia)) as Hd.
  pose proof (Zdigits2_nonneg m) as Hd0.
  assert (He1b : e <= e1 <= K) by (unfold fexp64 in He1; lia).
  assert (Hm1b : 0 <= shr_m r1 < 2 ^ (K - e1)).
  { rewrite Hm1. split.
    - apply Z.div_pos; [assumption | apply Z.pow_pos_nonneg; lia].
    - apply div_pow2_lt; [|lia|lia]. replace (e1 - e + (K - e1)) with (K - e) by lia.
      split; assumption. }
  pose proof (round_nearest_even_bounds (shr_m r1) (loc_of_shr_record r1)) as Hr.
  set (m1r := round_nearest_even (shr_m r1) (loc_of_shr_record r1)) in *.
  assert (Hm1r : 0 <= m1r < 2 ^ (K + 1 - e1)).
  { replace (K + 1 - e1) with (K - e1 + 1) by lia. rewrite pow2_succ by lia. lia. }
  destruct (shr_fexp prec emax m1r e1 loc_Exact) as [r2 e2] eqn:H2.
  apply shr_fexp_spec in H2; [|lia]. destruct H2 as [He2 Hm2].
  pose proof (Zdigits2_le m1r (K + 1 - e1) Hm1r ltac:(lia)) as Hd1.
  pose proof (Zdigits2_nonneg m1r) as Hd10.
  assert (He2b : e1 <= e2 <= Z.max e (fexp64 (K + 1))) by (unfold fexp64 in *; lia).
  assert (Hm2b : 0 <= shr_m r2 < 2 ^ 53).
  { rewrite Hm2. split.
    - apply Z.div_pos; [lia | apply Z.pow_pos_nonneg; lia].
    - apply div_pow2_lt; [|lia|lia]. split; [lia|].
      apply Z.lt_le_trans with (2 ^ Zdigits2 m1r); [apply Zdigits2_upper; lia|].
      apply Z.pow_le_mono_r; [lia|]. unfold fexp64 in He2. lia. }
  assert (Hpos : 0 < m -> -1021 <= e -> 0 < shr_m r2).
  { intros Hmpos Helow.
    assert (Hp1 : 0 < shr_m r1).
    { rewrite Hm1. pose proof (Zdigits2_pos m Hmpos) as Hdp.
      apply div_pow2_pos with (d := Zdigits2 m); [apply Zdigits2_lower; assumption|].
      unfold fexp64 in He1. lia. }
    rewrite Hm2. assert (Hp1r : 0 < m1r) by lia.
    pose proof (Zdigits2_pos m1r Hp1r) as Hdp.
    apply div_pow2_pos with (d := Zdigits2 m1r); [apply Zdigits2_lower; assumption|].
    unfold fexp64 in He2. lia. }
  destruct (shr_m r2) as [|m2|m2] eqn:Em2.
  - split; [reflexivity|].
    destruct (Z.eq_dec m 0) as [|Hne]; [left; assumption|right].
    destruct (Z_lt_ge_dec e (-1021)) as [|Hge]; [assumption|exfalso].
    assert (0 < 0) by (apply Hpos; lia). lia.
  - destruct (e2 <=? emax - prec) eqn:Ele.
    + split; [reflexivity|]. split; [lia|]. lia.
    + apply Z.leb_gt in Ele. unfold emax, prec in Ele. split; [reflexivity|]. lia.
  - lia.
Qed.

Lemma thousand_eq : thousand = S754_finite false 8796093022208000 (-43).
Proof. reflexivity. Qed.

Lemma div_thousand_bound m e :
  Z.pos m < 2 ^ 53 -> -43 <= e <= 971 ->
  fin53 (div (S754_finite false m e) thousand)
  /\ expo (div (S754_finite false m e) thousand) <= e - 8.
Proof.
  intros Hm He. rewrite thousand_eq. unfold div, SFdiv, SFdiv_core_binary.
  change (Zdigits2 (Z.pos 8796093022208000)) with 53.
  rewrite fexp_64.
  pose proof (Zdigits2_le (Z.pos m) 53 ltac:(lia) ltac:(lia)) as Hd.
  pose proof (Zdigits2_pos (Z.pos m) ltac:(lia)) as Hd0.
  set (d := Zdigits2 (Z.pos m)) in *.
  set (e' := Z.min (fexp64 (d + e - (53 + -43))) (e - -43)).
  assert (He' : -1074 <= e' <= e - 10) by (unfold e', fexp64; lia).
  destruct (e - -43 - e') as [|s|s] eqn:Es; try lia.
  rewrite Z.shiftl_mul_pow2 by lia.
  destruct (IntDef.Z.div_eucl (Z.pos m * 2 ^ Z.pos s) 8796093022208000) as [q r] eqn:Eq.
  assert (Hq : q = Z.pos m * 2 ^ Z.pos s / 8796093022208000).
  { unfold Z.div. change (Z.div_eucl (Z.pos m * 2 ^ Z.pos s) 8796093022208000)
      with (IntDef.Z.div_eucl (Z.pos m * 2 ^ Z.pos s) 8796093022208000).
    rewrite Eq. reflexivity. }
  cbn [xorb].
  assert (Hpow : 0 < 2 ^ Z.pos s) by (apply Z.pow_pos_nonneg; lia).
  assert (Hqb : 0 <= q < 2 ^ (e + 44 - e')).
  { rewrite Hq. split; [apply Z.div_pos; lia|].
    apply Z.div_lt_upper_bound; [lia|].
    replace (e + 44 - e') with (Z.pos s + 1) by lia. rewrite pow2_succ by lia.
    change (2 ^ 53) with 9007199254740992 in Hm. nia. }
  pose proof (binary_round_aux_bound false q e' (new_location 8796093022208000 r) (e + 44)
                Hqb ltac:(lia)) as B.
  destruct (binary_round_aux prec emax false q e' (new_location 8796093022208000 r))
    as [sg|sg| |sg m2 e2]; cbn [fin53 expo].
  - split; [exact I | lia].
  - unfold fexp64 in B. lia.
  - contradiction.
  - destruct B as (-> & Hm2 & He2). unfold fexp64 in He2. split; [split; [assumption|lia] | lia].
Qed.

End NumberFacts.

(** ** Integers as numbers *)

Lemma iter_xO p d : Z.pos (Pos.iter xO p d) = Z.pos p * 2 ^ Z.pos d.
Proof.
  induction d as [|d IH] using Pos.peano_ind.
  - change (Pos.iter xO p 1) with (p~0)%positive. change (2 ^ 1) with 2.
    change (Z.pos p~0) with (2 * Z.pos p). ring.
  - rewrite Pos.iter_succ, Pos2Z.inj_succ, Z.pow_succ_r by lia.
    change (Z.pos (Pos.iter xO p d)~0) with (2 * Z.pos (Pos.iter xO p d)).
    rewrite IH. ring.
Qed.

Lemma shl_align_spec mx ex ex' mz ez :
  shl_align mx ex ex' = (mz, ez) ->
  ez = Z.min ex ex' /\ Z.pos mz = Z.pos mx * 2 ^ (ex - ez).
Proof.
  unfold shl_align. destruct (ex' - ex) as [|d|d] eqn:E; intros [= <- <-].
  - rewrite Z.min_l by lia. rewrite Z.sub_diag. simpl. lia.
  - rewrite Z.min_l by lia. rewrite Z.sub_diag. simpl. lia.
  - rewrite Z.min_r by lia. rewrite iter_xO. split; [reflexivity|].
    f_equal. f_equal. lia.
Qed.

(** A non-zero integer below [2^1023] becomes a finite number of the same
    sign, with the canonical exponent of its size or one more. *)
Lemma binary_round_bound sx p :
  Z.pos p < 2 ^ 1023 ->
  exists m e,
    binary_round Number.prec Number.emax sx p 0 = S754_finite sx m e
    /\ Z.pos m < 2 ^ 53
    /\ Z.min 0 (fexp64 (Zdigits2 (Z.pos p))) <= e <= 971.
Proof.
  intros Hp. unfold binary_round. rewrite NumberFacts.fexp_64.
  change (Z.pos (digits2_pos p)) with (Zdigits2 (Z.pos p)).
  pose proof (NumberFacts.Zdigits2_le (Z.pos p) 1023 ltac:(lia) ltac:(lia)) as Hd.
  pose proof (NumberFacts.Zdigits2_pos (Z.pos p) ltac:(lia)) as Hd0.
  pose proof (NumberFacts.Zdigits2_upper (Z.pos p) ltac:(lia)) as Hup.
  set (d := Zdigits2 (Z.pos p)) in *.
  destruct (shl_align p 0 (fexp64 (d + 0))) as [mz ez] eqn:E.
  apply shl_align_spec in E. destruct E as [Hez Hmz].
  replace (d + 0) with d in Hez by lia.
  assert (Hezb : -52 <= ez <= 0) by (unfold fexp64 in Hez; lia).
  assert (Hb : 0 <= Z.pos mz < 2 ^ (d - ez)).
  { split; [lia|]. rewrite Hmz. replace (d - ez) with (d + (0 - ez)) by lia.
    rewrite Z.pow_add_r by lia.
    apply Z.mul_lt_mono_pos_r; [apply Z.pow_pos_nonneg; lia | assumption]. }
  pose proof (NumberFacts.binary_round_aux_bound sx (Z.pos mz) ez loc_Exact d Hb ltac:(lia)) as B.
  destruct (binary_round_aux Number.prec Number.emax sx (Z.pos mz) ez loc_Exact)
    as [sg|sg| |sg m e].
  - destruct B as [_ [B|B]]; lia.
  - unfold fexp64 in B. lia.
  - contradiction.
  - destruct B as (-> & Hm & He). exists m, e. split; [reflexivity|].
    split; [assumption|]. unfold fexp64 in *. lia.
Qed.

Lemma gt_thousand_finite m e :
  Number.gt (S754_finite false m e) Number.thousand = true -> -43 <= e.
Proof.
  rewrite NumberFacts.thousand_eq. unfold Number.gt, SFltb, SFcompare.
  destruct (Z.compare_spec (-43) e); [lia | lia | discriminate].
Qed.

Lemma gt_thousand_exponent m e :
  -43 < e -> Number.gt (S754_finite false m e) Number.thousand = true.
Proof.
  intros He. rewrite NumberFacts.thousand_eq. unfold Number.gt, SFltb, SFcompare.
  destruct (Z.compare_spec (-43) e); [lia | reflexivity | lia].
Qed.

Lemma gt_thousand_fin53 x :
  fin53 x -> Number.gt x Number.thousand = true ->
  exists m e, x = S754_finite false m e /\ Z.pos m < 2 ^ 53 /\ -43 <= e <= 971.
Proof.
  destruct x as [s|s| |[|] m e]; simpl; try contradiction.
  - intros _. rewrite NumberFacts.thousand_eq. discriminate.
  - intros [Hm He] Hgt. apply gt_thousand_finite in Hgt. exists m, e. repeat split; lia.
Qed.

(** Whether an integer exceeds 1000 can be asked of the number. *)
Lemma checked_below (P : Z -> bool) (bound : nat) :
  forallb (fun n => P (Z.of_nat n)) (seq 0 bound) = true ->
  forall s, 0 <= s < Z.of_nat bound -> P s = true.
Proof.
  intros H s Hs. rewrite forallb_forall in H.
  rewrite <- (Z2Nat.id s) by lia. apply H. apply in_seq. lia.
Qed.

Lemma gt_thousand_of_Z s :
  0 <= s < 2 ^ 1023 -> Number.gt (Number.of_Z s) Number.thousand = (1000 <? s).
Proof.
  intros [Hs0 Hs]. destruct (Z_lt_ge_dec s 1024) as [Hsmall|Hlarge].
  - destruct s as [|p|p]; [reflexivity | | lia].
    apply Bool.eqb_prop.
    apply (checked_below
               (fun s => Bool.eqb (Number.gt (Number.of_Z s) Number.thousand) (1000 <? s)) 1024);
        [vm_compute; reflexivity | lia].
  - destruct s as [|p|p]; try lia.
    unfold Number.of_Z, binary_normalize.
    destruct (binary_round_bound false p Hs) as (m & e & -> & Hm & He).
    assert (Hd : 11 <= Zdigits2 (Z.pos p)).
    { destruct (Z_lt_ge_dec (Zdigits2 (Z.pos p)) 11) as [Hlt|]; [exfalso|lia].
      pose proof (NumberFacts.Zdigits2_upper (Z.pos p) ltac:(lia)) as Hup.
      pose proof (NumberFacts.Zdigits2_nonneg (Z.pos p)).
      assert (2 ^ Zdigits2 (Z.pos p) <= 2 ^ 10) by (apply Z.pow_le_mono_r; lia).
      change (2 ^ 10) with 1024 in *. lia. }
    rewrite gt_thousand_exponent by (unfold fexp64 in He; lia).
    symmetry. apply Z.ltb_lt. lia.
Qed.

Lemma of_Z_fin53 s : 0 <= s < 2 ^ 1023 -> fin53 (Number.of_Z s).
Proof.
  intros [H0 Hs]. destruct s as [|p|p]; try lia; [exact I|].
  unfold Number.of_Z, binary_normalize.
  destruct (binary_round_bound false p Hs) as (m & e & -> & Hm & He).
  simpl. lia.
Qed.

(** ** The file size *)

(** The division loop ends: each round lowers the binary exponent by
    eight at least. *)
Lemma scale_result fuel : forall x k,
  fin53 x -> expo x + 44 <= 8 * Z.of_nat fuel ->
  exists j,
    scale fuel x k = Some (divisions j x, (k + j)%nat)
    /\ fin53 (divisions j x)
    /\ Number.gt (divisions j x) Number.thousand = false
    /\ forall i, (i < j)%nat -> Number.gt (divisions i x) Number.thousand = true.
Proof.
  induction fuel as [|fuel IH]; intros x k Hx Hfuel;
    destruct (Number.gt x Number.thousand) eqn:Hgt.
  - destruct (gt_thousand_fin53 x Hx Hgt) as (m & e & -> & _ & He). simpl in Hfuel. lia.
  - exists O. simpl. rewrite Hgt, Nat.add_0_r. repeat split; try assumption. intros i Hi; lia.
  - destruct (gt_thousand_fin53 x Hx Hgt) as (m & e & -> & Hm & He).
    destruct (NumberFacts.div_thousand_bound m e Hm He) as [Hfin Hexp].
    destruct (IH (Number.div (S754_finite false m e) Number.thousand) (S k) Hfin)
      as (j & Hscale & Hj & Hstop & Hrun).
    { simpl expo in Hfuel. lia. }
    exists (S j). cbn [scale divisions]. rewrite Hgt, Hscale.
    replace (S k + j)%nat with (k + S j)%nat by lia.
    repeat split; try assumption.
    intros [|i] Hi; [exact Hgt | apply Hrun; lia].
  - exists O. simpl. rewrite Hgt, Nat.add_0_r. repeat split; try assumption. intros i Hi; lia.
Qed.





Lemma file_size_text_small K rt s :
  0 <= s <= 1000 ->
  file_size_text K rt s = Returns (JS.Z_toString s ++ nth 0 (FILE_SIZES K) "undefined").
Proof.
  intros Hs. unfold file_size_text.
  assert (H1024 : 2 ^ 10 <= 2 ^ 1023) by (apply Z.pow_le_mono_r; lia).
  change (2 ^ 10) with 1024 in H1024.
  rewrite gt_thousand_of_Z by lia.
  destruct (1000 <? s) eqn:E; [apply Z.ltb_lt in E; lia | reflexivity].
Qed.

Lemma file_size_text_large K rt s :
  1000 < s < 2 ^ 1023 ->
  exists k,
    (1 <= k)%nat
    /\ fin53 (divisions k (Number.of_Z s))
    /\ Number.gt (divisions k (Number.of_Z s)) Number.thousand = false
    /\ (forall i, (i < k)%nat -> Number.gt (divisions i (Number.of_Z s)) Number.thousand = true)
    /\ file_size_text K rt s
       = Returns (Number.toFixed2 (exponentToString rt) (divisions k (Number.of_Z s))
                  ++ nth k (FILE_SIZES K) "undefined").
Proof.
  intros Hs. unfold file_size_text.
  assert (Hgt : Number.gt (Number.of_Z s) Number.thousand = true).
  { rewrite gt_thousand_of_Z by lia. apply Z.ltb_lt. lia. }
  rewrite Hgt.
  destruct (gt_thousand_fin53 _ (of_Z_fin53 s ltac:(lia)) Hgt) as (m & e & Hx & Hm & He).
  rewrite Hx in *.
  destruct (NumberFacts.div_thousand_bound m e Hm He) as [Hfin Hexp].
  destruct (scale_result scale_fuel (Number.div (S754_finite false m e) Number.thousand) 1 Hfin)
    as (j & Hscale & Hj & Hstop & Hrun).
  { unfold scale_fuel. lia. }
  rewrite Hscale. exists (S j). cbn [divisions].
  split; [lia|]. split; [assumption|]. split; [assumption|]. split; [|reflexivity].
  intros [|i] Hi; [exact Hgt | apply Hrun; lia].
Qed.






Example file_size_500 :
  fileDetails Sample.constants Sample.runtime Cases.viewing_log "{file_size}"
    Cases.log_doc (selection Cases.log_editor)
  = Returns "500 bytes".
Proof. vm_compute. reflexivity. Qed.

Example file_size_1500000 :
  fileDetails Sample.constants Sample.runtime Sample.editing "{file_size}"
    Sample.doc (selection Sample.editor)
  = Returns "1.50mb".
Proof. vm_compute. reflexivity. Qed.

(** Whatever the table of units is, 1,500,000 bytes are divided twice and
    read "1.50". *)
Example file_size_text_1500000 K rt :
  file_size_text K rt 1500000 = Returns ("1.50" ++ nth 2 (FILE_SIZES K) "undefined").
Proof. reflexivity. Qed.

(** ** The scanned tokens *)

Lemma replace_is_replace_first s pat value :
  dollar_free value = true -> JS.replace s pat value = replace_first s pat value.
Proof.
  intros H. unfold JS.replace, replace_first.
  destruct (JS.indexOf s pat); [|reflexivity].
  rewrite JSFacts.GetSubstitution_plain by assumption. reflexivity.
Qed.

Lemma guarded_replace s pat value :
  (if JS.includes s pat then JS.replace s pat value else s) = JS.replace s pat value.
Proof.
  destruct (JS.includes s pat) eqn:E; [reflexivity|].
  symmetry. apply JSFacts.replace_absent. exact E.
Qed.

(** C6.  The total-lines token is replaced by [document.toLocaleString()],
    the text of the document object, not by its line count: a document of
    42 lines yields ["[object Object]"], and the line count has no part in
    the result of [fileDetails] at all. *)
Theorem totalLines_ignores_lineCount :
  TextDocument.lineCount Sample.doc = 42
  /\ toLocaleString Sample.runtime 42 = "42"
  /\ fileDetails Sample.constants Sample.runtime Sample.editing "{total_lines} lines"
       Sample.doc (selection Sample.editor)
     = Returns "[object Object] lines"
  /\ forall K rt host raw doc sel n,
       fileDetails K rt host raw (with_lineCount doc n) sel
       = fileDetails K rt host raw doc sel.
Proof.
  split; [reflexivity|]. split; [reflexivity|]. split; [vm_compute; reflexivity|].
  intros. reflexivity.
Qed.

(** C5, as stated, fails: of a token that occurs twice only the first
    occurrence is replaced. *)
Lemma repeated_token_counterexample :
  fileDetails Sample.constants Sample.runtime Sample.editing
    "{current_line}/{current_line}" Sample.doc (selection Sample.editor)
  = Returns "5/{current_line}"
  /\ substitute_every
       (token_values Sample.constants Sample.runtime Sample.editing
          (selection Sample.editor) "1.50mb" "Unknown")
       "{current_line}/{current_line}"
     = "5/5"
  /\ JS.includes "5/{current_line}" (REPLACE_KEYS.CurrentLine (KEYS Sample.constants)) = true.
Proof. repeat split; vm_compute; reflexivity. Qed.

(** C5, amended.  Where the file size and the repository name can be
    computed and no value holds a [$], [fileDetails] returns the template
    with the first occurrence of each scanned token replaced by its value:
    one replacement per token, in the order of the blocks, after the
    total-lines block. *)
Theorem fileDetails_first_occurrences K rt host raw doc sel size repo :
  size_value K rt host doc = Returns size ->
  repo_value K host = Returns repo ->
  forallb dollar_free (map snd (token_values K rt host sel size repo)) = true ->
  fileDetails K rt host raw doc sel
  = Returns (substitute_first (token_values K rt host sel size repo)
               (totalLines_step K raw doc)).
Proof.
  intros Hsize Hrepo Hfree. cbn [token_values map snd forallb] in Hfree.
  repeat (apply andb_true_iff in Hfree; destruct Hfree as [? Hfree]).
  unfold fileDetails, substitute_first, token_values. cbn [fold_left fst snd].
  set (r0 := totalLines_step K raw doc).
  unfold currentLine_step. rewrite guarded_replace, replace_is_replace_first by assumption.
  set (r1 := replace_first r0 _ _).
  unfold currentColumn_step. rewrite guarded_replace, replace_is_replace_first by assumption.
  set (r2 := replace_first r1 _ _).
  assert (Hstep : fileSize_step K rt host r2 doc
                  = Returns (replace_first r2 (REPLACE_KEYS.FileSize (KEYS K)) size)).
  { unfold fileSize_step, size_value in *.
    destruct (JS.includes r2 (REPLACE_KEYS.FileSize (KEYS K))) eqn:E.
    - destruct (fs_stat host (TextDocument.uri doc)); [|discriminate].
      rewrite Hsize. simpl. rewrite replace_is_replace_first by assumption. reflexivity.
    - unfold replace_first, JS.includes in *.
      destruct (JS.indexOf r2 (REPLACE_KEYS.FileSize (KEYS K))); [discriminate | reflexivity]. }
  rewrite Hstep. cbn [bind].
  set (r3 := replace_first r2 _ _).
  assert (Hbranch : gitBranch_step K host r3
                    = replace_first r3 (REPLACE_KEYS.GitBranch (KEYS K)) (branch_value K host)).
  { unfold gitBranch_step, branch_value in *.
    destruct (has_repositories host);
      rewrite guarded_replace, replace_is_replace_first by assumption; reflexivity. }
  rewrite Hbranch. set (r4 := replace_first r3 _ _).
  unfold gitRepoName_step, repo_value in *.
  destruct (JS.includes r4 (REPLACE_KEYS.GitRepoName (KEYS K))) eqn:E.
  - destruct (has_repositories host).
    + rewrite Hrepo. simpl. rewrite replace_is_replace_first by assumption. reflexivity.
    + injection Hrepo as <-. rewrite replace_is_replace_first by assumption. reflexivity.
  - unfold replace_first, JS.includes in *.
    destruct (JS.indexOf r4 (REPLACE_KEYS.GitRepoName (KEYS K))); [discriminate | reflexivity].
Qed.

Lemma fileDetails_first_occurrences_witness :
  fileDetails Sample.constants Sample.runtime Cases.cloned
    "{current_line}:{current_column} {file_size} {git_repo_name}@{git_branch} {git_branch}"
    Sample.doc (selection Sample.editor)
  = Returns "5:10 1.50mb project@main {git_branch}".
Proof.
  rewrite (fileDetails_first_occurrences Sample.constants Sample.runtime Cases.cloned _
             Sample.doc (selection Sample.editor) "1.50mb" "project");
    vm_compute; reflexivity.
Defined.

(** ** Git lookups *)

Lemma find_nothing {A} (f : A -> bool) l :
  (forall x, In x l -> f x = false) -> find f l = None.
Proof.
  induction l as [|x l IH]; intros H; simpl; [reflexivity|].
  rewrite (H x) by (left; reflexivity). apply IH. intros y Hy. apply H. right. exact Hy.
Qed.

(** In each of the three situations the lookups yield the fallback. *)
Lemma git_fallback_values K host branch repo :
  git_fallback K host branch repo ->
  branch_value K host = branch /\ repo_value K host = Returns repo.
Proof.
  unfold branch_value, repo_value, has_repositories.
  intros [Hgit | api Hgit Hrepos | api Hgit Hrepos Hsel]; rewrite Hgit.
  - split; reflexivity.
  - rewrite Hrepos. split; reflexivity.
  - destruct (Git.repositories api) as [|r rs] eqn:E; [congruence|].
    unfold git_branch_name, git_repo_name, selected_repository.
    rewrite E, (find_nothing _ (r :: rs)) by exact Hsel. split; reflexivity.
Qed.

(** C3, as stated, fails: with a repository that is not selected the
    branch token becomes the empty-value text, not the "unknown"
    sentinel. *)
Lemma none_selected_counterexample :
  (forall api, git Cases.none_selected = Some api ->
     forall repo, In repo (Git.repositories api) -> Git.selected (Git.ui repo) = false)
  /\ fileDetails Sample.constants Sample.runtime Cases.none_selected "{git_branch}"
       Sample.doc (selection Sample.editor)
     = Returns (EMPTY Sample.constants)
  /\ EMPTY Sample.constants <> UNKNOWN_GIT_BRANCH Sample.constants.
Proof.
  split; [|split].
  - intros api [= <-] repo [<-|[]]. reflexivity.
  - vm_compute. reflexivity.
  - discriminate.
Qed.

(** C3, amended.  Without the git integration, or with an integration
    that lists no repository, the branch and repository-name tokens
    give way to their "unknown" sentinels; with repositories of which none
    is selected they give way to the empty-value text.  Either way the
    lookup does not fail: [fileDetails] goes on from the file-size block
    to its result. *)
Theorem git_tokens_fall_back K rt host raw doc sel branch repo :
  git_fallback K host branch repo ->
  gitBranch_step K host raw = JS.replace raw (REPLACE_KEYS.GitBranch (KEYS K)) branch
  /\ gitRepoName_step K host raw
     = Returns (JS.replace raw (REPLACE_KEYS.GitRepoName (KEYS K)) repo)
  /\ (forall pos,
        dollar_free branch = true ->
        JS.indexOf raw (REPLACE_KEYS.GitBranch (KEYS K)) = Some pos ->
        gitBranch_step K host raw
        = JS.take pos raw ++ branch
          ++ JS.drop (pos + String.length (REPLACE_KEYS.GitBranch (KEYS K))) raw)
  /\ (forall pos,
        dollar_free repo = true ->
        JS.indexOf raw (REPLACE_KEYS.GitRepoName (KEYS K)) = Some pos ->
        gitRepoName_step K host raw
        = Returns (JS.take pos raw ++ repo
                   ++ JS.drop (pos + String.length (REPLACE_KEYS.GitRepoName (KEYS K))) raw))
  /\ fileDetails K rt host raw doc sel
     = (mid <- fileSize_step K rt host
                 (currentColumn_step K rt
                    (currentLine_step K rt (totalLines_step K raw doc) sel) sel) doc ;;
        Returns (JS.replace
                   (JS.replace mid (REPLACE_KEYS.GitBranch (KEYS K)) branch)
                   (REPLACE_KEYS.GitRepoName (KEYS K)) repo)).
Proof.
  intros Hfb. destruct (git_fallback_values K host branch repo Hfb) as [Hb Hr].
  assert (Hbranch : forall r,
             gitBranch_step K host r = JS.replace r (REPLACE_KEYS.GitBranch (KEYS K)) branch).
  { intros r. unfold gitBranch_step. unfold branch_value in Hb.
    destruct (has_repositories host); rewrite Hb; apply guarded_replace. }
  assert (Hrepo : forall r,
             gitRepoName_step K host r
             = Returns (JS.replace r (REPLACE_KEYS.GitRepoName (KEYS K)) repo)).
  { intros r. unfold gitRepoName_step. unfold repo_value in Hr.
    destruct (JS.includes r (REPLACE_KEYS.GitRepoName (KEYS K))) eqn:E.
    - destruct (has_repositories host);
        [rewrite Hr; reflexivity | injection Hr as <-; reflexivity].
    - rewrite JSFacts.replace_absent by assumption. reflexivity. }
  split; [apply Hbranch|]. split; [apply Hrepo|]. split; [|split].
  - intros pos Hfree Hpos. rewrite Hbranch. apply JSFacts.replace_present; assumption.
  - intros pos Hfree Hpos. rewrite Hrepo. f_equal. apply JSFacts.replace_present; assumption.
  - unfold fileDetails.
    destruct (fileSize_step K rt host _ doc) as [mid| |]; simpl; [|reflexivity|reflexivity].
    rewrite Hbranch. apply Hrepo.
Qed.

Lemma git_tokens_fall_back_witness :
  fileDetails Sample.constants Sample.runtime Sample.editing "{git_repo_name}@{git_branch}"
    Sample.doc (selection Sample.editor)
  = Returns "Unknown@Unknown"
  /\ fileDetails Sample.constants Sample.runtime Cases.none_selected "<{git_repo_name}>"
       Sample.doc (selection Sample.editor)
     = Returns "<  >".
Proof.
  split.
  - destruct (git_tokens_fall_back Sample.constants Sample.runtime Sample.editing
                "{git_repo_name}@{git_branch}" Sample.doc (selection Sample.editor)
                "Unknown" "Unknown" (no_integration Sample.constants Sample.editing eq_refl))
      as (_ & _ & _ & _ & ->).
    vm_compute. reflexivity.
  - destruct (git_tokens_fall_back Sample.constants Sample.runtime Cases.none_selected
                "<{git_repo_name}>" Sample.doc (selection Sample.editor) "  " "  ") as (_ & _ & _ & _ & ->).
    + apply (nothing_selected Sample.constants Cases.none_selected
               {| Git.repositories :=
                    [Cases.repository false (Some "main")
                       [Some "https://github.com/u/project.git"]] |});
        [reflexivity | discriminate |].
      intros repo [<-|[]]. reflexivity.
    + vm_compute. reflexivity.
Defined.

(** ** Failure and fallback *)

Lemma file_size_text_returns K rt s :
  0 <= s < 2 ^ 1023 -> exists text, file_size_text K rt s = Returns text.
Proof.
  intros Hs. destruct (Z_le_gt_dec s 1000) as [Hsmall|Hlarge].
  - rewrite file_size_text_small by lia. eauto.
  - destruct (file_size_text_large K rt s ltac:(lia)) as (k & _ & _ & _ & _ & ->). eauto.
Qed.

Lemma repo_value_returns K host :
  first_remote_usable host = true -> exists repo, repo_value K host = Returns repo.
Proof.
  unfold first_remote_usable, repo_value, git_repo_name.
  destruct (has_repositories host) as [api|]; [|eauto].
  destruct (selected_repository api) as [repo|]; [|eauto].
  destruct (Git.remotes (Git.state repo)) as [|remote rest]; [discriminate|].
  destruct (Git.fetchUrl remote) as [url|]; [|eauto].
  destruct (nth_error (JS.split url "/") 1); [eauto | discriminate].
Qed.

Lemma fileDetails_returns K rt host raw doc sel :
  (exists size, fs_stat host (TextDocument.uri doc) = Some size /\ 0 <= size < 2 ^ 1023) ->
  first_remote_usable host = true ->
  exists out, fileDetails K rt host raw doc sel = Returns out.
Proof.
  intros (size & Hstat & Hsize) Hgit. unfold fileDetails.
  set (r := currentColumn_step K rt _ sel).
  assert (Hstep : exists mid, fileSize_step K rt host r doc = Returns mid).
  { unfold fileSize_step. destruct (JS.includes r _); [|eauto].
    rewrite Hstat. destruct (file_size_text_returns K rt size Hsize) as (text & ->).
    simpl. eauto. }
  destruct Hstep as (mid & ->). simpl.
  unfold gitRepoName_step. destruct (JS.includes _ (REPLACE_KEYS.GitRepoName (KEYS K))); [|eauto].
  destruct (repo_value_returns K host Hgit) as (repo & Hrepo). unfold repo_value in Hrepo.
  destruct (has_repositories host); [rewrite Hrepo; simpl|]; eauto.
Qed.

Lemma details_returns K rt util config host idling editing debugging :
  stat_answers host ->
  first_remote_usable host = true ->
  exists text, details K rt util config host idling editing debugging = Returns text.
Proof.
  unfold stat_answers, details. intros Hstat Hgit.
  destruct (activeTextEditor host) as [editor|]; [|eauto].
  unfold fill.
  match goal with
  | |- context [fileDetails K rt host ?raw ?doc ?sel] =>
      destruct (fileDetails_returns K rt host raw doc sel Hstat Hgit) as (out & ->)
  end.
  simpl. eauto.
Qed.

(** The stat of a document that is not on disk is rejected, and the
    rejection is passed on to the caller. *)
Lemma rejected_stat_passed_on :
  fs_stat Cases.unsaved (TextDocument.uri Sample.doc) = None
  /\ Sample.run Cases.size_config Cases.unsaved no_payload 5 = Throws FileSystemError.
Proof. split; [reflexivity | vm_compute; reflexivity]. Qed.

(** Where the stat of the open document answers and the selected
    repository, if any, has a first remote whose fetch URL, if any, has a
    piece after a slash, the call returns a payload. *)
Lemma activity_returns K rt util config host previous now :
  stat_answers host ->
  first_remote_usable host = true ->
  exists p, activity K rt util config host previous now = Returns p.
Proof.
  intros Hstat Hgit. unfold activity.
  destruct (details_returns K rt util config host
              DetailsIdling DetailsEditing DetailsDebugging Hstat Hgit) as (d & ->).
  destruct (details_returns K rt util config host
              LowerDetailsIdling LowerDetailsEditing LowerDetailsDebugging Hstat Hgit) as (s & ->).
  simpl. destruct (activeTextEditor host) as [editor|]; [|eauto].
  destruct (String.eqb _ _); eauto.
Qed.

(** C4.  The assembler does raise.  The stat answers, an editor is open,
    the subtitle template holds the repository-name token and the selected
    repository has an empty list of remotes: [remotes[0]] is [undefined],
    reading [fetchUrl] from it throws a TypeError, and [activity] hands
    the error on instead of a payload with a fallback.  The lookups next to
    it are guarded: on the same host the branch token is served, and a
    first remote that lacks a fetch URL gives the empty value.  Whatever
    the host and the template, a repository-name token met by
    [fileDetails] while the selected repository has no remote ends in the
    TypeError. *)
Theorem empty_remotes_raise :
  stat_answers Cases.no_remote
  /\ git Cases.no_remote
     = Some {| Git.repositories := [Cases.repository true (Some "main") []] |}
  /\ Cases.repo_config LowerDetailsEditing = "{git_repo_name} on {git_branch}"
  /\ Sample.run Cases.repo_config Cases.no_remote no_payload 5 = Throws TypeError
  /\ (exists p, Sample.run Cases.branch_config Cases.no_remote no_payload 5 = Returns p
                /\ ActivityPayload.state p = Some "on main")
  /\ (exists p, Sample.run Cases.repo_config Cases.no_fetch_url no_payload 5 = Returns p
                /\ ActivityPayload.state p = Some (EMPTY Sample.constants ++ " on main"))
  /\ forall K rt host raw doc sel api repo mid,
       has_repositories host = Some api ->
       selected_repository api = Some repo ->
       Git.remotes (Git.state repo) = [] ->
       fileSize_step K rt host
         (currentColumn_step K rt (currentLine_step K rt (totalLines_step K raw doc) sel) sel)
         doc = Returns mid ->
       JS.includes (gitBranch_step K host mid) (REPLACE_KEYS.GitRepoName (KEYS K)) = true ->
       fileDetails K rt host raw doc sel = Throws TypeError.
Proof.
  split.
  { exists 1500000. split; [reflexivity|]. split; [discriminate | reflexivity]. }
  split; [reflexivity|]. split; [reflexivity|].
  split; [vm_compute; reflexivity|].
  split; [eexists; split; vm_compute; reflexivity|].
  split; [eexists; split; vm_compute; reflexivity|].
  intros K rt host raw doc sel api repo mid Hapi Hsel Hremotes Hmid Hin.
  unfold fileDetails. rewrite Hmid. cbn [bind].
  unfold gitRepoName_step. rewrite Hin, Hapi.
  unfold git_repo_name. rewrite Hsel, Hremotes. reflexivity.
Qed.

(** * Further properties of [activity], [details] and [fileDetails] *)

(** ** The payload *)

(** X1.  Of the payload passed in only [startTimestamp] is read: a call
    with another payload of the same timestamp returns the same, and the
    party, secret and instance fields of a returned payload are never
    set. *)
Theorem activity_reads_only_startTimestamp K rt util config host previous now p :
  activity K rt util config host previous now = Returns p ->
  (forall previous',
      ActivityPayload.startTimestamp previous' = ActivityPayload.startTimestamp previous ->
      activity K rt util config host previous' now = Returns p)
  /\ ActivityPayload.partyId p = None
  /\ ActivityPayload.partySize p = None
  /\ ActivityPayload.partyMax p = None
  /\ ActivityPayload.matchSecret p = None
  /\ ActivityPayload.joinSecret p = None
  /\ ActivityPayload.spectateSecret p = None
  /\ ActivityPayload.instance p = None.
Proof.
  intros H. split.
  - intros previous' Hts. rewrite <- H. unfold activity. rewrite Hts. reflexivity.
  - unfold activity in H. invert_bind H. invert_bind H.
    destruct (activeTextEditor host) as [editor|].
    + destruct (String.eqb _ _).
      * injection H as <-. repeat split.
      * invert_bind H. invert_bind H. injection H as <-. repeat split.
    + injection H as <-. repeat split.
Qed.

Lemma activity_reads_only_startTimestamp_witness :
  (forall previous',
      ActivityPayload.startTimestamp previous' = ActivityPayload.startTimestamp More.joined ->
      activity Sample.constants Sample.runtime Sample.util Sample.config Sample.idle
        previous' 5 = Returns Cases.idle_payload)
  /\ ActivityPayload.partyId Cases.idle_payload = None
  /\ ActivityPayload.partySize Cases.idle_payload = None
  /\ ActivityPayload.partyMax Cases.idle_payload = None
  /\ ActivityPayload.matchSecret Cases.idle_payload = None
  /\ ActivityPayload.joinSecret Cases.idle_payload = None
  /\ ActivityPayload.spectateSecret Cases.idle_payload = None
  /\ ActivityPayload.instance Cases.idle_payload = None.
Proof.
  apply (activity_reads_only_startTimestamp Sample.constants Sample.runtime Sample.util
           Sample.config Sample.idle More.joined 5 Cases.idle_payload).
  vm_compute. reflexivity.
Defined.

(** X2.  The small image of every returned payload is the debug image
    while a debug session is active, otherwise the Insiders image when the
    application name contains "Insiders", otherwise the standard one,
    whether or not a document is open; its text is the configured one with
    the application name filled in. *)
Theorem small_image_of_payload K rt util config host previous now p :
  activity K rt util config host previous now = Returns p ->
  ActivityPayload.smallImageKey p = Some (small_image_key K host)
  /\ ActivityPayload.smallImageText p
     = Some (JS.replace (config SmallImage) (REPLACE_KEYS.AppName (KEYS K)) (appName host)).
Proof.
  unfold activity, small_image_key. intros H. invert_bind H. invert_bind H.
  destruct (activeTextEditor host) as [editor|].
  - destruct (String.eqb _ _).
    + injection H as <-. split; reflexivity.
    + invert_bind H. invert_bind H. injection H as <-. split; reflexivity.
  - injection H as <-. split; reflexivity.
Qed.

Lemma small_image_of_payload_witness :
  exists p,
    Sample.run Sample.config More.insiders_debugging no_payload 5 = Returns p
    /\ ActivityPayload.smallImageKey p = Some "debug"
    /\ ActivityPayload.smallImageText p = Some "Visual Studio Code - Insiders".
Proof.
  eexists. split; [vm_compute; reflexivity|].
  apply (small_image_of_payload Sample.constants Sample.runtime Sample.util Sample.config
           More.insiders_debugging no_payload 5).
  vm_compute. reflexivity.
Defined.

(** X3.  Without an active editor the payload is the idle one in full:
    idle title and subtitle, the idle large image with the configured idle
    text as it is (no padding), and the small image of the application or
    of the debug session. *)
Theorem idle_payload_without_editor K rt util config host previous now :
  activeTextEditor host = None ->
  activity K rt util config host previous now =
  Returns
    {| ActivityPayload.details :=
         Some (JS.replace (config DetailsIdling) (REPLACE_KEYS.Empty (KEYS K)) (EMPTY K));
       ActivityPayload.state :=
         Some (JS.replace (config LowerDetailsIdling) (REPLACE_KEYS.Empty (KEYS K)) (EMPTY K));
       ActivityPayload.startTimestamp :=
         Some (match ActivityPayload.startTimestamp previous with
               | Some t => t
               | None => now
               end);
       ActivityPayload.largeImageKey := Some (IDLE_IMAGE_KEY K);
       ActivityPayload.largeImageText := Some (config LargeImageIdling);
       ActivityPayload.smallImageKey := Some (small_image_key K host);
       ActivityPayload.smallImageText :=
         Some (JS.replace (config SmallImage) (REPLACE_KEYS.AppName (KEYS K)) (appName host));
       ActivityPayload.partyId := None;
       ActivityPayload.partySize := None;
       ActivityPayload.partyMax := None;
       ActivityPayload.matchSecret := None;
       ActivityPayload.joinSecret := None;
       ActivityPayload.spectateSecret := None;
       ActivityPayload.instance := None |}.
Proof.
  intros Hed. unfold activity.
  rewrite !(details_no_editor _ _ _ _ _ _ _ _ Hed). simpl. rewrite Hed. reflexivity.
Qed.

Lemma idle_payload_without_editor_witness :
  Sample.run Sample.config Cases.debugging_no_editor no_payload 1700000000000 =
  Returns
    {| ActivityPayload.details := Some "Idling";
       ActivityPayload.state := Some "Idling";
       ActivityPayload.startTimestamp := Some 1700000000000;
       ActivityPayload.largeImageKey := Some "vscode-big";
       ActivityPayload.largeImageText := Some "Idling";
       ActivityPayload.smallImageKey := Some "debug";
       ActivityPayload.smallImageText := Some "Visual Studio Code";
       ActivityPayload.partyId := None;
       ActivityPayload.partySize := None;
       ActivityPayload.partyMax := None;
       ActivityPayload.matchSecret := None;
       ActivityPayload.joinSecret := None;
       ActivityPayload.spectateSecret := None;
       ActivityPayload.instance := None |}.
Proof.
  exact (idle_payload_without_editor Sample.constants Sample.runtime Sample.util
           Sample.config Cases.debugging_no_editor no_payload 1700000000000 eq_refl).
Defined.

Lemma mode_template_editing config host editing debugging :
  activeDebugSession host = false ->
  mode_template config host editing debugging = config editing.
Proof. unfold mode_template. intros ->. reflexivity. Qed.

(** X4.  With an editor open and no debug session, title and subtitle of
    a returned payload are the editing templates filled in; the call
    returns whenever both can be filled; and the debugging and idle
    templates have no influence on the outcome. *)
Theorem editing_templates_with_editor K rt util config host previous now editor :
  activeTextEditor host = Some editor ->
  activeDebugSession host = false ->
  (forall p,
      activity K rt util config host previous now = Returns p ->
      exists d s,
        fill K rt util config host editor (config DetailsEditing) = Returns d
        /\ fill K rt util config host editor (config LowerDetailsEditing) = Returns s
        /\ ActivityPayload.details p = Some d
        /\ ActivityPayload.state p = Some s)
  /\ (forall d s,
      fill K rt util config host editor (config DetailsEditing) = Returns d ->
      fill K rt util config host editor (config LowerDetailsEditing) = Returns s ->
      exists p, activity K rt util config host previous now = Returns p)
  /\ (forall config' : Config,
      (forall key,
          key <> DetailsDebugging -> key <> LowerDetailsDebugging ->
          key <> DetailsIdling -> key <> LowerDetailsIdling ->
          config' key = config key) ->
      activity K rt util config' host previous now
      = activity K rt util config host previous now).
Proof.
  intros Hed Hdbg. split; [|split].
  - intros p H. unfold activity in H.
    rewrite !(details_editor _ _ _ _ _ _ _ _ _ Hed) in H.
    rewrite !(mode_template_editing _ _ _ _ Hdbg) in H.
    invert_bind H. invert_bind H. rewrite Hed in H.
    exists a, a0. split; [assumption|]. split; [assumption|].
    destruct (String.eqb _ _).
    + injection H as <-. split; reflexivity.
    + rewrite Ha, Ha0 in H. simpl in H. injection H as <-. split; reflexivity.
  - intros d s Hd Hs. unfold activity.
    rewrite !(details_editor _ _ _ _ _ _ _ _ _ Hed).
    rewrite !(mode_template_editing _ _ _ _ Hdbg).
    rewrite Hd, Hs. simpl. rewrite Hed.
    destruct (String.eqb _ _); eexists; reflexivity.
  - intros config' Hagree. unfold activity.
    rewrite !(details_editor _ _ _ _ _ _ _ _ _ Hed).
    rewrite !(mode_template_editing _ _ _ _ Hdbg).
    rewrite !(fill_config K rt util config config') by (apply Hagree; discriminate).
    rewrite !(Hagree DetailsEditing), !(Hagree LowerDetailsEditing),
      !(Hagree LargeImageIdling), !(Hagree SmallImage), !(Hagree LargeImage)
      by discriminate.
    reflexivity.
Qed.

Lemma editing_templates_with_editor_witness :
  exists p,
    Sample.run Sample.config Sample.editing no_payload 5 = Returns p
    /\ ActivityPayload.details p = Some "Editing main.ts"
    /\ ActivityPayload.state p = Some "Workspace: project".
Proof.
  destruct (editing_templates_with_editor Sample.constants Sample.runtime Sample.util
              Sample.config Sample.editing no_payload 5 Sample.editor eq_refl eq_refl)
    as (Hfrom & Hreturns & _).
  destruct (Hreturns "Editing main.ts" "Workspace: project") as (p & Hp);
    [vm_compute; reflexivity | vm_compute; reflexivity |].
  exists p. split; [exact Hp|].
  destruct (Hfrom p Hp) as (d & s & Hd & Hs & Hpd & Hps).
  rewrite Hpd, Hps.
  assert (E1 : fill Sample.constants Sample.runtime Sample.util Sample.config Sample.editing
                 Sample.editor (Sample.config DetailsEditing) = Returns "Editing main.ts")
    by (vm_compute; reflexivity).
  assert (E2 : fill Sample.constants Sample.runtime Sample.util Sample.config Sample.editing
                 Sample.editor (Sample.config LowerDetailsEditing) = Returns "Workspace: project")
    by (vm_compute; reflexivity).
  rewrite E1 in Hd. rewrite E2 in Hs.
  injection Hd as <-. injection Hs as <-. split; reflexivity.
Defined.

(** ** The large image *)

Module StringFacts.

Lemma length_append s t : String.length (s ++ t) = (String.length s + String.length t)%nat.
Proof. induction s as [|c s IH]; simpl; [reflexivity | rewrite IH; reflexivity]. Qed.

Lemma append_nil_r s : s ++ "" = s.
Proof. induction s as [|c s IH]; simpl; [reflexivity | rewrite IH; reflexivity]. Qed.

Lemma append_assoc s t u : (s ++ t) ++ u = s ++ (t ++ u).
Proof. induction s as [|c s IH]; simpl; [reflexivity | rewrite IH; reflexivity]. Qed.

Lemma repeat_to_length n fill : forall cur,
  fill <> "" -> String.length (JS.repeat_to n fill cur) = n.
Proof.
  induction n as [|n IH]; intros cur Hfill; simpl; [reflexivity|].
  destruct cur as [|c cur]; [destruct fill as [|c fill]; [congruence|]|];
    simpl; rewrite IH by assumption; reflexivity.
Qed.

(** [padEnd] only appends, reaches the length asked for with a non-empty
    filler, and leaves a string that is long enough alone. *)
Lemma padEnd_spec s n fill :
  (exists pad, JS.padEnd s n fill = s ++ pad)
  /\ (fill <> "" -> (n <= String.length (JS.padEnd s n fill))%nat)
  /\ ((n <= String.length s)%nat -> JS.padEnd s n fill = s).
Proof.
  unfold JS.padEnd. destruct (Nat.leb_spec n (String.length s)) as [Hle|Hlt].
  - split; [exists ""; symmetry; apply append_nil_r|]. split; [intros _; exact Hle | reflexivity].
  - split; [eexists; reflexivity|]. split; [|lia].
    intros Hfill. rewrite length_append, repeat_to_length by assumption. lia.
Qed.

End StringFacts.

(** X5.  For an open document whose language id is not ['Log'] the large
    image of a returned payload is the file icon of the document, and its
    text is the configured text with the icon name filled in, padded at the
    end with the empty-value text: at least two characters long, and
    unchanged where it already is. *)
Theorem large_image_of_document K rt util config host previous now editor p :
  activeTextEditor host = Some editor ->
  TextDocument.languageId (document editor) <> "Log" ->
  activity K rt util config host previous now = Returns p ->
  ActivityPayload.largeImageKey p = Some (resolveFileIcon util (document editor))
  /\ exists text pad,
       ActivityPayload.largeImageText p = Some text
       /\ text = large_image_text K util config (document editor) ++ pad
       /\ (EMPTY K <> "" -> (2 <= String.length text)%nat)
       /\ ((2 <= String.length (large_image_text K util config (document editor)))%nat ->
           pad = "").
Proof.
  intros Hed Hlog H. apply String.eqb_neq in Hlog.
  unfold activity in H. invert_bind H. invert_bind H. rewrite Hed, Hlog in H.
  invert_bind H. invert_bind H. injection H as <-. cbn [ActivityPayload.largeImageKey
    ActivityPayload.largeImageText].
  split; [reflexivity|].
  fold (large_image_text K util config (document editor)).
  destruct (StringFacts.padEnd_spec (large_image_text K util config (document editor)) 2 (EMPTY K))
    as ((pad & Hpad) & Hlen & Hlong).
  destruct (Nat.leb_spec 2 (String.length (large_image_text K util config (document editor))))
    as [Hle|Hlt].
  - exists (large_image_text K util config (document editor)), "".
    split; [rewrite Hlong by assumption; reflexivity|].
    split; [symmetry; apply StringFacts.append_nil_r|]. split; [intros _; assumption | reflexivity].
  - exists (JS.padEnd (large_image_text K util config (document editor)) 2 (EMPTY K)), pad.
    split; [reflexivity|]. split; [assumption|]. split; [assumption | lia].
Qed.

Lemma large_image_of_document_witness :
  exists p,
    Sample.run More.short_config Sample.editing no_payload 5 = Returns p
    /\ ActivityPayload.largeImageKey p = Some "typescript"
    /\ exists text pad,
         ActivityPayload.largeImageText p = Some text
         /\ text = "!" ++ pad
         /\ (EMPTY Sample.constants <> "" -> (2 <= String.length text)%nat)
         /\ ((2 <= String.length "!")%nat -> pad = "").
Proof.
  eexists. split; [vm_compute; reflexivity|].
  apply (large_image_of_document Sample.constants Sample.runtime Sample.util More.short_config
           Sample.editing no_payload 5 Sample.editor); [reflexivity | discriminate |].
  vm_compute. reflexivity.
Defined.

Example large_image_padded :
  exists p,
    Sample.run More.short_config Sample.editing no_payload 5 = Returns p
    /\ ActivityPayload.largeImageText p = Some "! ".
Proof. eexists. split; vm_compute; reflexivity. Qed.

(** ** Git *)

Lemma find_first {A} (f : A -> bool) pre x post :
  (forall y, In y pre -> f y = false) -> f x = true ->
  find f (pre ++ x :: post)%list = Some x.
Proof.
  induction pre as [|y pre IH]; intros Hpre Hx; simpl.
  - rewrite Hx. reflexivity.
  - rewrite (Hpre y) by (left; reflexivity). apply IH; [|assumption].
    intros z Hz. apply Hpre. right. exact Hz.
Qed.

Lemma has_repositories_some host api pre repo post :
  git host = Some api ->
  Git.repositories api = (pre ++ repo :: post)%list ->
  has_repositories host = Some api.
Proof.
  unfold has_repositories. intros -> H. rewrite H. destruct pre; reflexivity.
Qed.

(** X6.  The branch token gives way to the branch name of the first
    selected repository in the list of the git extension: unselected
    repositories before it and all repositories after it play no part, and
    a missing [HEAD] or branch name yields the empty-value text. *)
Theorem branch_of_first_selected K host api pre repo post raw :
  git host = Some api ->
  Git.repositories api = (pre ++ repo :: post)%list ->
  (forall r, In r pre -> Git.selected (Git.ui r) = false) ->
  Git.selected (Git.ui repo) = true ->
  gitBranch_step K host raw
  = JS.replace raw (REPLACE_KEYS.GitBranch (KEYS K)) (head_name K repo).
Proof.
  intros Hgit Hrepos Hpre Hsel. unfold gitBranch_step.
  rewrite (has_repositories_some host api pre repo post Hgit Hrepos).
  rewrite guarded_replace. f_equal.
  unfold git_branch_name, selected_repository, head_name.
  rewrite Hrepos, (find_first _ pre repo post) by assumption. reflexivity.
Qed.

Lemma branch_of_first_selected_witness :
  gitBranch_step Sample.constants More.three_repositories "on {git_branch}" = "on main".
Proof.
  rewrite (branch_of_first_selected Sample.constants More.three_repositories
             {| Git.repositories :=
                  [ Cases.repository false (Some "dev") [Some "git@example.org:u/first.git"];
                    Cases.repository true (Some "main") [Some "https://example.org/u/second.git"];
                    Cases.repository true (Some "other") [Some "git@example.org:u/third.git"] ] |}
             [Cases.repository false (Some "dev") [Some "git@example.org:u/first.git"]]
             (Cases.repository true (Some "main") [Some "https://example.org/u/second.git"])
             [Cases.repository true (Some "other") [Some "git@example.org:u/third.git"]]
             "on {git_branch}" eq_refl eq_refl).
  - reflexivity.
  - intros r [<-|[]]. reflexivity.
  - reflexivity.
Defined.

(** ** Splitting at a character *)
Module SplitFacts.

Lemma pieces_indexOf c : forall s,
  match JS.indexOf s (String c "") with
  | None => pieces c s = [s]
  | Some pos => pieces c s = JS.take pos s :: pieces c (JS.drop (pos + 1) s)
  end.
Proof.
  induction s as [|a s IH]; [reflexivity|].
  cbn [JS.indexOf JS.startsWith pieces]. rewrite (Ascii.eqb_sym c a).
  destruct (Ascii.eqb a c); [reflexivity|].
  destruct (JS.indexOf s (String c "")) as [pos|]; cbn [option_map]; rewrite IH; reflexivity.
Qed.

Lemma drop_length n : forall s, (String.length (JS.drop n s) <= String.length s - n)%nat.
Proof.
  induction n as [|n IH]; intros [|a s]; simpl; try lia. apply IH.
Qed.

Lemma indexOf_nonempty s c pos :
  JS.indexOf s (String c "") = Some pos -> (1 <= String.length s)%nat.
Proof. destruct s; simpl; [discriminate | lia]. Qed.

Lemma split_go_pieces c : forall fuel s,
  (String.length s <= fuel)%nat -> JS.split_go fuel (String c "") s = pieces c s.
Proof.
  induction fuel as [|fuel IH]; intros s Hlen.
  - destruct s; [reflexivity | simpl in Hlen; lia].
  - cbn [JS.split_go]. pose proof (pieces_indexOf c s) as Hp.
    destruct (JS.indexOf s (String c "")) as [pos|] eqn:E; [|symmetry; exact Hp].
    rewrite Hp. f_equal. change (String.length (String c "")) with 1%nat.
    apply IH. pose proof (drop_length (pos + 1) s). pose proof (indexOf_nonempty s c pos E). lia.
Qed.

(** [split] at a one-character separator yields the pieces. *)
Lemma split_pieces c s : JS.split s (String c "") = pieces c s.
Proof. unfold JS.split. apply split_go_pieces. lia. Qed.

Lemma includes_cons c a s :
  JS.includes (String a s) (String c "") = (Ascii.eqb a c || JS.includes s (String c ""))%bool.
Proof.
  unfold JS.includes. cbn [JS.indexOf JS.startsWith]. rewrite (Ascii.eqb_sym c a).
  destruct (Ascii.eqb a c); [reflexivity|].
  destruct (JS.indexOf s (String c "")); reflexivity.
Qed.

Lemma pieces_nonempty c s : pieces c s <> [].
Proof.
  destruct s as [|a s]; simpl; [discriminate|].
  destruct (Ascii.eqb a c); [discriminate|]. destruct (pieces c s); discriminate.
Qed.

(** A string without the separator is one piece. *)
Lemma pieces_single c s : JS.includes s (String c "") = false -> pieces c s = [s].
Proof.
  induction s as [|a s IH]; [reflexivity|].
  rewrite includes_cons. intros H. apply orb_false_iff in H. destruct H as [Ha Hs].
  simpl. rewrite Ha, IH by assumption. reflexivity.
Qed.

(** Pieces of [a], then pieces of [b], are the pieces of [a c b]. *)
Lemma pieces_app c a b : pieces c (a ++ String c b) = (pieces c a ++ pieces c b)%list.
Proof.
  induction a as [|x a IH]; simpl.
  - rewrite Ascii.eqb_refl. reflexivity.
  - destruct (Ascii.eqb x c); [rewrite IH; reflexivity|].
    rewrite IH. destruct (pieces c a) as [|piece rest] eqn:E; [|reflexivity].
    exfalso. exact (pieces_nonempty c a E).
Qed.

Lemma join_cons x y l sep : JS.join (x :: y :: l) sep = x ++ sep ++ JS.join (y :: l) sep.
Proof. reflexivity. Qed.

(** [join] undoes [split]. *)
Lemma join_pieces c s : JS.join (pieces c s) (String c "") = s.
Proof.
  induction s as [|a s IH]; [reflexivity|]. cbn [pieces].
  destruct (pieces c s) as [|piece rest] eqn:E; [exfalso; exact (pieces_nonempty c s E)|].
  destruct (Ascii.eqb_spec a c) as [->|Hne].
  - rewrite join_cons, IH. reflexivity.
  - destruct rest as [|piece' rest].
    + simpl in *. rewrite IH. reflexivity.
    + rewrite join_cons. rewrite join_cons in IH. rewrite <- IH. reflexivity.
Qed.

End SplitFacts.

(** ** The repository name *)

Lemma second_piece a b rest :
  JS.includes a "/" = false -> JS.includes b "/" = false ->
  rest = "" \/ (exists r, rest = "/" ++ r) ->
  nth_error (JS.split (a ++ "/" ++ b ++ rest) "/") 1 = Some b.
Proof.
  intros Ha Hb Hrest. rewrite SplitFacts.split_pieces.
  change (a ++ "/" ++ b ++ rest) with (a ++ String "/" (b ++ rest)).
  rewrite SplitFacts.pieces_app, (SplitFacts.pieces_single _ a Ha).
  destruct Hrest as [->|(r & ->)].
  - rewrite StringFacts.append_nil_r, (SplitFacts.pieces_single _ b Hb). reflexivity.
  - change (b ++ "/" ++ r) with (b ++ String "/" r).
    rewrite SplitFacts.pieces_app, (SplitFacts.pieces_single _ b Hb). reflexivity.
Qed.

(** X7.  The repository-name token gives way to the second piece of the
    fetch URL of the first remote of the first selected repository, split
    at slashes, with the first [.git] taken out.  For a URL with a scheme
    and two slashes that piece is empty. *)
Theorem repo_name_of_fetch_url K host api pre repo post remote others a b rest raw :
  git host = Some api ->
  Git.repositories api = (pre ++ repo :: post)%list ->
  (forall r, In r pre -> Git.selected (Git.ui r) = false) ->
  Git.selected (Git.ui repo) = true ->
  Git.remotes (Git.state repo) = remote :: others ->
  Git.fetchUrl remote = Some (a ++ "/" ++ b ++ rest) ->
  JS.includes a "/" = false ->
  JS.includes b "/" = false ->
  rest = "" \/ (exists r, rest = "/" ++ r) ->
  gitRepoName_step K host raw
  = Returns (JS.replace raw (REPLACE_KEYS.GitRepoName (KEYS K)) (JS.replace b ".git" "")).
Proof.
  intros Hgit Hrepos Hpre Hsel Hremotes Hurl Ha Hb Hrest. unfold gitRepoName_step.
  rewrite (has_repositories_some host api pre repo post Hgit Hrepos).
  assert (Hname : git_repo_name K api = Returns (JS.replace b ".git" "")).
  { unfold git_repo_name, selected_repository.
    rewrite Hrepos, (find_first _ pre repo post) by assumption.
    rewrite Hremotes, Hurl, (second_piece a b rest Ha Hb Hrest). reflexivity. }
  rewrite Hname. cbn [bind].
  destruct (JS.includes raw (REPLACE_KEYS.GitRepoName (KEYS K))) eqn:E; [reflexivity|].
  rewrite JSFacts.replace_absent by assumption. reflexivity.
Qed.

Lemma repo_name_of_fetch_url_witness :
  gitRepoName_step Sample.constants More.three_repositories "<{git_repo_name}>"
  = Returns "<>"
  /\ gitRepoName_step Sample.constants Cases.cloned "<{git_repo_name}>"
     = Returns "<project>".
Proof.
  split.
  - rewrite (repo_name_of_fetch_url Sample.constants More.three_repositories
               {| Git.repositories :=
                    [ Cases.repository false (Some "dev") [Some "git@example.org:u/first.git"];
                      Cases.repository true (Some "main")
                        [Some "https://example.org/u/second.git"];
                      Cases.repository true (Some "other")
                        [Some "git@example.org:u/third.git"] ] |}
               [Cases.repository false (Some "dev") [Some "git@example.org:u/first.git"]]
               (Cases.repository true (Some "main") [Some "https://example.org/u/second.git"])
               [Cases.repository true (Some "other") [Some "git@example.org:u/third.git"]]
               {| Git.fetchUrl := Some "https://example.org/u/second.git" |} []
               "https:" "" "/example.org/u/second.git" "<{git_repo_name}>"
               eq_refl eq_refl).
    + reflexivity.
    + intros r [<-|[]]. reflexivity.
    + reflexivity.
    + reflexivity.
    + reflexivity.
    + reflexivity.
    + reflexivity.
    + right. eexists. reflexivity.
  - rewrite (repo_name_of_fetch_url Sample.constants Cases.cloned
               {| Git.repositories :=
                    [Cases.repository true (Some "main") [Some "git@github.com:u/project.git"]] |}
               []
               (Cases.repository true (Some "main") [Some "git@github.com:u/project.git"])
               []
               {| Git.fetchUrl := Some "git@github.com:u/project.git" |} []
               "git@github.com:u" "project.git" "" "<{git_repo_name}>"
               eq_refl eq_refl).
    + reflexivity.
    + intros r [].
    + reflexivity.
    + reflexivity.
    + reflexivity.
    + reflexivity.
    + reflexivity.
    + left. reflexivity.
Defined.

(** ** Where a call fails *)

Lemma bind_Throws {A B} (x : outcome A) (k : A -> outcome B) e :
  bind x k = Throws e -> x = Throws e \/ exists a, x = Returns a /\ k a = Throws e.
Proof. destruct x; simpl; intros H; [eauto | left; congruence | discriminate]. Qed.

Lemma file_size_text_never_throws K rt size e : file_size_text K rt size <> Throws e.
Proof.
  unfold file_size_text. destruct (Number.gt _ _); [|discriminate].
  destruct (scale _ _ _) as [[? ?]|]; discriminate.
Qed.

Lemma repo_value_throws K host :
  first_remote_usable host = false -> repo_value K host = Throws TypeError.
Proof.
  unfold first_remote_usable, repo_value, git_repo_name.
  destruct (has_repositories host) as [api|]; [|discriminate].
  destruct (selected_repository api) as [repo|]; [|discriminate].
  destruct (Git.remotes (Git.state repo)) as [|remote rest]; [reflexivity|].
  destruct (Git.fetchUrl remote) as [url|]; [|discriminate].
  destruct (nth_error (JS.split url "/") 1); [discriminate | reflexivity].
Qed.

Lemma gitRepoName_step_repo_value K host raw :
  gitRepoName_step K host raw
  = if JS.includes raw (REPLACE_KEYS.GitRepoName (KEYS K))
    then (repo <- repo_value K host ;;
          Returns (JS.replace raw (REPLACE_KEYS.GitRepoName (KEYS K)) repo))
    else Returns raw.
Proof.
  unfold gitRepoName_step, repo_value.
  destruct (JS.includes _ _); [|reflexivity]. destruct (has_repositories host); reflexivity.
Qed.

Lemma gitRepoName_step_throws K host raw e :
  gitRepoName_step K host raw = Throws e <->
  e = TypeError
  /\ JS.includes raw (REPLACE_KEYS.GitRepoName (KEYS K)) = true
  /\ first_remote_usable host = false.
Proof.
  rewrite gitRepoName_step_repo_value. split.
  - destruct (JS.includes _ _); [|discriminate].
    destruct (first_remote_usable host) eqn:Eu.
    + destruct (repo_value_returns K host Eu) as (repo & ->). discriminate.
    + rewrite (repo_value_throws K host Eu). intros [= <-]. repeat split.
  - intros (-> & -> & Hu). rewrite (repo_value_throws K host Hu). reflexivity.
Qed.

Lemma fileDetails_throws K rt host raw doc sel e :
  fileDetails K rt host raw doc sel = Throws e ->
  (e = FileSystemError /\ fs_stat host (TextDocument.uri doc) = None)
  \/ (e = TypeError /\ first_remote_usable host = false).
Proof.
  unfold fileDetails. intros H. apply bind_Throws in H. destruct H as [H|(mid & _ & H)].
  - left. unfold fileSize_step in H. destruct (JS.includes _ _); [|discriminate].
    destruct (fs_stat host (TextDocument.uri doc)) as [size|]; [|injection H as <-; auto].
    apply bind_Throws in H. destruct H as [H|(text & _ & H)]; [|discriminate].
    exfalso. exact (file_size_text_never_throws K rt size e H).
  - right. apply gitRepoName_step_throws in H. tauto.
Qed.

Lemma details_throws K rt util config host idling editing debugging e :
  details K rt util config host idling editing debugging = Throws e ->
  exists editor,
    activeTextEditor host = Some editor
    /\ ((e = FileSystemError
         /\ fs_stat host (TextDocument.uri (document editor)) = None)
        \/ (e = TypeError /\ first_remote_usable host = false)).
Proof.
  unfold details. destruct (activeTextEditor host) as [editor|]; [|discriminate].
  unfold fill. intros H. apply bind_Throws in H. destruct H as [H|(out & _ & H)]; [|discriminate].
  exists editor. split; [reflexivity|]. exact (fileDetails_throws _ _ _ _ _ _ _ H).
Qed.

(** X8.  A call throws only with an editor open, and only in two ways: the
    rejection of the file stat, passed on, or a [TypeError] from a selected
    repository whose first remote is missing or has a fetch URL without a
    slash. *)
Theorem activity_throws_only K rt util config host previous now e :
  activity K rt util config host previous now = Throws e ->
  exists editor,
    activeTextEditor host = Some editor
    /\ ((e = FileSystemError
         /\ fs_stat host (TextDocument.uri (document editor)) = None)
        \/ (e = TypeError /\ first_remote_usable host = false)).
Proof.
  unfold activity. intros H.
  apply bind_Throws in H. destruct H as [H|(d & _ & H)]; [exact (details_throws _ _ _ _ _ _ _ _ _ H)|].
  apply bind_Throws in H. destruct H as [H|(s & _ & H)]; [exact (details_throws _ _ _ _ _ _ _ _ _ H)|].
  destruct (activeTextEditor host) as [editor|] eqn:Hed; [|discriminate].
  destruct (String.eqb _ _); [discriminate|].
  apply bind_Throws in H. destruct H as [H|(d' & _ & H)].
  { pose proof (details_throws _ _ _ _ _ _ _ _ _ H) as R. rewrite Hed in R. exact R. }
  apply bind_Throws in H. destruct H as [H|(s' & _ & H)]; [|discriminate].
  pose proof (details_throws _ _ _ _ _ _ _ _ _ H) as R. rewrite Hed in R. exact R.
Qed.

Lemma activity_throws_only_witness :
  Sample.run Cases.repo_config Cases.no_remote no_payload 5 = Throws TypeError
  /\ first_remote_usable Cases.no_remote = false.
Proof.
  assert (H : activity Sample.constants Sample.runtime Sample.util Cases.repo_config
                Cases.no_remote no_payload 5 = Throws TypeError) by (vm_compute; reflexivity).
  split; [exact H|].
  destruct (activity_throws_only Sample.constants Sample.runtime Sample.util Cases.repo_config
              Cases.no_remote no_payload 5 TypeError H) as (editor & _ & [[Hfs _]|[_ Hgit]]);
    [discriminate | exact Hgit].
Defined.

(** X9.  For a template in which the repository name is the only scanned
    token that may occur, [fileDetails] throws exactly when the token is
    there and the selected repository has no usable first remote; without
    the token the state of the repositories does no harm. *)
Theorem repo_token_throws_iff K rt host raw doc sel :
  free_of [ REPLACE_KEYS.TotalLines (KEYS K); REPLACE_KEYS.CurrentLine (KEYS K);
            REPLACE_KEYS.CurrentColumn (KEYS K); REPLACE_KEYS.FileSize (KEYS K);
            REPLACE_KEYS.GitBranch (KEYS K) ] raw = true ->
  (fileDetails K rt host raw doc sel = Throws TypeError
   <-> JS.includes raw (REPLACE_KEYS.GitRepoName (KEYS K)) = true
       /\ first_remote_usable host = false)
  /\ (JS.includes raw (REPLACE_KEYS.GitRepoName (KEYS K)) = false ->
      fileDetails K rt host raw doc sel = Returns raw).
Proof.
  intros H. absent H.
  assert (Hfd : fileDetails K rt host raw doc sel = gitRepoName_step K host raw).
  { unfold fileDetails, totalLines_step, currentLine_step, currentColumn_step.
    rewrite Habs, Habs0, Habs1. unfold fileSize_step. rewrite Habs2. cbn [bind].
    unfold gitBranch_step. rewrite Habs3. reflexivity. }
  rewrite Hfd. split.
  - rewrite gitRepoName_step_throws. tauto.
  - intros Hno. unfold gitRepoName_step. rewrite Hno. reflexivity.
Qed.

Lemma repo_token_throws_iff_witness :
  fileDetails Sample.constants Sample.runtime Cases.no_remote "{git_repo_name}"
    Sample.doc (selection Sample.editor) = Throws TypeError
  /\ fileDetails Sample.constants Sample.runtime Cases.no_remote "{file_name}"
       Sample.doc (selection Sample.editor) = Returns "{file_name}".
Proof.
  split.
  - apply (repo_token_throws_iff Sample.constants Sample.runtime Cases.no_remote
             "{git_repo_name}" Sample.doc (selection Sample.editor) eq_refl).
    split; reflexivity.
  - apply (repo_token_throws_iff Sample.constants Sample.runtime Cases.no_remote
             "{file_name}" Sample.doc (selection Sample.editor) eq_refl).
    reflexivity.
Defined.

(** ** The tokens of [details] *)

Lemma free_of_app tokens tokens' raw :
  free_of (tokens ++ tokens')%list raw = true ->
  free_of tokens raw = true /\ free_of tokens' raw = true.
Proof.
  unfold free_of. rewrite forallb_app. intros H. apply andb_true_iff in H. exact H.
Qed.

Lemma replace_each_absent pairs raw :
  free_of (map fst pairs) raw = true -> replace_each pairs raw = raw.
Proof.
  induction pairs as [|[token value] pairs IH]; intros H; [reflexivity|].
  cbn [map fst] in H. apply free_of_cons in H. destruct H as [Ht H].
  unfold replace_each in *. cbn [fold_left fst snd].
  rewrite JSFacts.replace_absent by assumption. apply IH. exact H.
Qed.

(** One token of the chain on its own: the tokens before it are not in
    the template, the tokens after it not in the result. *)
Lemma replace_each_single before token value after raw :
  free_of (map fst before) raw = true ->
  free_of (map fst after) (JS.replace raw token value) = true ->
  replace_each (before ++ (token, value) :: after)%list raw = JS.replace raw token value.
Proof.
  intros Hb Ha. unfold replace_each. rewrite fold_left_app.
  fold (replace_each before raw). rewrite (replace_each_absent before raw Hb).
  cbn [fold_left fst snd]. apply (replace_each_absent after). exact Ha.
Qed.

Lemma fileDetails_unscanned K rt host raw doc sel :
  free_of (scanned_tokens K) raw = true ->
  fileDetails K rt host raw doc sel = Returns raw.
Proof.
  intros H. unfold scanned_tokens in H. absent H.
  unfold fileDetails, totalLines_step, currentLine_step, currentColumn_step.
  rewrite Habs, Habs0, Habs1. unfold fileSize_step. rewrite Habs2. cbn [bind].
  unfold gitBranch_step. rewrite Habs3. unfold gitRepoName_step. rewrite Habs4.
  reflexivity.
Qed.

(** [fill], with its values named. *)
Lemma fill_unfold K rt util config host editor raw :
  fill K rt util config host editor raw =
  (r <- fileDetails K rt host
          match getWorkspaceFolder host (TextDocument.uri (document editor)) with
          | Some folder =>
              JS.replace raw (REPLACE_KEYS.FullDirName (KEYS K))
                (full_dir_name rt host editor folder)
          | None => raw
          end
          (document editor) (selection editor) ;;
   Returns (replace_each (folded_values K rt util config host editor) r)).
Proof.
  unfold fill, replace_each, folded_values, full_dir_name, dir_name, workspace_and_folder,
    workspace_shown, folder_shown, no_workspace_text.
  cbn [fold_left fst snd]. reflexivity.
Qed.

(** X10.  Outside of a workspace folder the full-directory token is not
    touched: a template with that token and none of the others comes back
    as it is, token included. *)
Theorem full_dir_token_kept_without_folder K rt util config host editor raw :
  getWorkspaceFolder host (TextDocument.uri (document editor)) = None ->
  free_of (scanned_tokens K ++ tl (folded_tokens K)) raw = true ->
  fill K rt util config host editor raw = Returns raw.
Proof.
  intros Hfolder H. apply free_of_app in H. destruct H as [Hs Hf].
  rewrite fill_unfold, Hfolder, (fileDetails_unscanned K rt host raw _ _ Hs). cbn [bind].
  rewrite replace_each_absent; [reflexivity | exact Hf].
Qed.

Lemma full_dir_token_kept_without_folder_witness :
  fill Sample.constants Sample.runtime Sample.util Sample.config More.loose_file Sample.editor
    "In {full_dir_name}"
  = Returns "In {full_dir_name}".
Proof.
  apply (full_dir_token_kept_without_folder Sample.constants Sample.runtime Sample.util
           Sample.config More.loose_file Sample.editor "In {full_dir_name}");
    reflexivity.
Defined.

Lemma full_dir_name_pieces rt host editor folder c dir :
  sep rt = String c "" ->
  (exists file,
      asRelativePath host (TextDocument.fileName (document editor)) = dir ++ String c file
      /\ JS.includes file (String c "") = false)
  \/ (JS.includes (asRelativePath host (TextDocument.fileName (document editor)))
        (String c "") = false
      /\ dir = "") ->
  full_dir_name rt host editor folder = folder_name folder ++ String c dir.
Proof.
  intros Hsep Hpath. unfold full_dir_name. rewrite Hsep, SplitFacts.split_pieces.
  destruct Hpath as [(file & -> & Hfile)|(Hfree & ->)].
  - rewrite SplitFacts.pieces_app, (SplitFacts.pieces_single c file Hfile).
    rewrite removelast_last, SplitFacts.join_pieces. reflexivity.
  - rewrite (SplitFacts.pieces_single c _ Hfree). reflexivity.
Qed.

(** X11.  Inside a workspace folder the full-directory token gives way to
    the folder name, the path separator, and the directory part of the
    path relative to the folder: everything before the last separator, and
    nothing at all for a file at the top of the folder, so that the text
    then ends with the separator. *)
Theorem full_dir_name_value K rt util config host editor folder c dir raw :
  sep rt = String c "" ->
  getWorkspaceFolder host (TextDocument.uri (document editor)) = Some folder ->
  (exists file,
      asRelativePath host (TextDocument.fileName (document editor)) = dir ++ String c file
      /\ JS.includes file (String c "") = false)
  \/ (JS.includes (asRelativePath host (TextDocument.fileName (document editor)))
        (String c "") = false
      /\ dir = "") ->
  free_of (scanned_tokens K ++ tl (folded_tokens K))
    (JS.replace raw (REPLACE_KEYS.FullDirName (KEYS K)) (folder_name folder ++ String c dir))
  = true ->
  fill K rt util config host editor raw
  = Returns (JS.replace raw (REPLACE_KEYS.FullDirName (KEYS K))
               (folder_name folder ++ String c dir)).
Proof.
  intros Hsep Hfolder Hpath H. apply free_of_app in H. destruct H as [Hs Hf].
  rewrite fill_unfold, Hfolder.
  rewrite (full_dir_name_pieces rt host editor folder c dir Hsep Hpath).
  rewrite (fileDetails_unscanned K rt host _ _ _ Hs). cbn [bind].
  rewrite replace_each_absent; [reflexivity | exact Hf].
Qed.

Lemma full_dir_name_value_witness :
  fill Sample.constants Sample.runtime Sample.util Sample.config Sample.editing Sample.editor
    "In {full_dir_name}"
  = Returns "In project/src"
  /\ fill Sample.constants Sample.runtime Sample.util Sample.config More.folder_only
       Sample.editor "In {full_dir_name}"
     = Returns "In project/".
Proof.
  split.
  - apply (full_dir_name_value Sample.constants Sample.runtime Sample.util Sample.config
             Sample.editing Sample.editor {| folder_name := "project" |} "/" "src"
             "In {full_dir_name}" eq_refl eq_refl).
    + left. exists "main.ts". split; reflexivity.
    + reflexivity.
  - apply (full_dir_name_value Sample.constants Sample.runtime Sample.util Sample.config
             More.folder_only Sample.editor {| folder_name := "project" |} "/" ""
             "In {full_dir_name}" eq_refl eq_refl).
    + right. split; reflexivity.
    + reflexivity.
Defined.

Lemma full_dir_step_absent K rt host editor raw :
  JS.includes raw (REPLACE_KEYS.FullDirName (KEYS K)) = false ->
  match getWorkspaceFolder host (TextDocument.uri (document editor)) with
  | Some folder =>
      JS.replace raw (REPLACE_KEYS.FullDirName (KEYS K)) (full_dir_name rt host editor folder)
  | None => raw
  end = raw.
Proof.
  intros H. destruct (getWorkspaceFolder _ _); [apply JSFacts.replace_absent; exact H | reflexivity].
Qed.

Lemma dir_name_pieces rt editor c name :
  sep rt = String c "" ->
  (exists parent,
      parse_dir rt (TextDocument.fileName (document editor)) = parent ++ String c name)
  \/ parse_dir rt (TextDocument.fileName (document editor)) = name ->
  JS.includes name (String c "") = false ->
  dir_name rt editor = name.
Proof.
  intros Hsep Hdir Hname. unfold dir_name, last_piece. rewrite Hsep, SplitFacts.split_pieces.
  destruct Hdir as [(parent & ->)| ->].
  - rewrite SplitFacts.pieces_app, (SplitFacts.pieces_single c name Hname).
    apply last_last.
  - rewrite (SplitFacts.pieces_single c name Hname). reflexivity.
Qed.

(** X12.  The directory-name token gives way to the last piece of the
    directory of the file: what follows its last separator, or all of it
    when it has none. *)
Theorem dir_name_value K rt util config host editor c name raw :
  sep rt = String c "" ->
  (exists parent,
      parse_dir rt (TextDocument.fileName (document editor)) = parent ++ String c name)
  \/ parse_dir rt (TextDocument.fileName (document editor)) = name ->
  JS.includes name (String c "") = false ->
  free_of (scanned_tokens K
           ++ [REPLACE_KEYS.FullDirName (KEYS K); REPLACE_KEYS.FileName (KEYS K)]) raw = true ->
  free_of [ REPLACE_KEYS.Workspace (KEYS K); REPLACE_KEYS.WorkspaceFolder (KEYS K);
            REPLACE_KEYS.WorkspaceAndFolder (KEYS K);
            REPLACE_KEYS.LanguageLowerCase (KEYS K); REPLACE_KEYS.LanguageTitleCase (KEYS K);
            REPLACE_KEYS.LanguageUpperCase (KEYS K) ]
    (JS.replace raw (REPLACE_KEYS.DirName (KEYS K)) name) = true ->
  fill K rt util config host editor raw
  = Returns (JS.replace raw (REPLACE_KEYS.DirName (KEYS K)) name).
Proof.
  intros Hsep Hdir Hname H Hafter. apply free_of_app in H. destruct H as [Hs Hf]. absent Hf.
  rewrite fill_unfold, (full_dir_step_absent K rt host editor raw) by assumption.
  rewrite (fileDetails_unscanned K rt host raw _ _ Hs). cbn [bind]. f_equal.
  unfold folded_values. rewrite (dir_name_pieces rt editor c name Hsep Hdir Hname).
  apply (replace_each_single
           [(REPLACE_KEYS.FileName (KEYS K),
             basename rt (TextDocument.fileName (document editor)))]).
  - unfold free_of. cbn [map fst forallb]. rewrite Habs0. reflexivity.
  - exact Hafter.
Qed.

Lemma dir_name_value_witness :
  fill Sample.constants Sample.runtime Sample.util Sample.config Sample.editing Sample.editor
    "In {dir_name}"
  = Returns "In src".
Proof.
  apply (dir_name_value Sample.constants Sample.runtime Sample.util Sample.config
           Sample.editing Sample.editor "/" "src" "In {dir_name}" eq_refl).
  - left. exists "/home/u/project". reflexivity.
  - reflexivity.
  - reflexivity.
  - reflexivity.
Defined.

(** X13.  The workspace token gives way to the name of the workspace;
    without one, to the name of the workspace folder of the file; without
    that too, to the configured no-workspace text, with its empty-value
    token filled in. *)
Theorem workspace_token_value K rt util config host editor raw shown :
  (exists n, workspace_name host = Some n /\ shown = n)
  \/ (workspace_name host = None
      /\ exists folder,
           getWorkspaceFolder host (TextDocument.uri (document editor)) = Some folder
           /\ shown = folder_name folder)
  \/ (workspace_name host = None
      /\ getWorkspaceFolder host (TextDocument.uri (document editor)) = None
      /\ shown = JS.replace (config LowerDetailsNoWorkspaceFound)
                   (REPLACE_KEYS.Empty (KEYS K)) (EMPTY K)) ->
  free_of (scanned_tokens K
           ++ [ REPLACE_KEYS.FullDirName (KEYS K); REPLACE_KEYS.FileName (KEYS K);
                REPLACE_KEYS.DirName (KEYS K) ]) raw = true ->
  free_of [ REPLACE_KEYS.WorkspaceFolder (KEYS K); REPLACE_KEYS.WorkspaceAndFolder (KEYS K);
            REPLACE_KEYS.LanguageLowerCase (KEYS K); REPLACE_KEYS.LanguageTitleCase (KEYS K);
            REPLACE_KEYS.LanguageUpperCase (KEYS K) ]
    (JS.replace raw (REPLACE_KEYS.Workspace (KEYS K)) shown) = true ->
  fill K rt util config host editor raw
  = Returns (JS.replace raw (REPLACE_KEYS.Workspace (KEYS K)) shown).
Proof.
  intros Hshown H Hafter. apply free_of_app in H. destruct H as [Hs Hf]. absent Hf.
  assert (Hw : workspace_shown K config host editor = shown).
  { unfold workspace_shown, folder_shown, no_workspace_text.
    destruct Hshown as [(n & -> & ->)|[(-> & folder & -> & ->)|(-> & -> & ->)]]; reflexivity. }
  rewrite fill_unfold, (full_dir_step_absent K rt host editor raw) by assumption.
  rewrite (fileDetails_unscanned K rt host raw _ _ Hs). cbn [bind]. f_equal.
  unfold folded_values. rewrite Hw.
  apply (replace_each_single
           [ (REPLACE_KEYS.FileName (KEYS K),
              basename rt (TextDocument.fileName (document editor)));
             (REPLACE_KEYS.DirName (KEYS K), dir_name rt editor) ]).
  - unfold free_of. cbn [map fst forallb]. rewrite Habs0, Habs1. reflexivity.
  - exact Hafter.
Qed.

Lemma workspace_token_value_witness :
  fill Sample.constants Sample.runtime Sample.util Sample.config More.folder_only
    Sample.editor "Workspace: {workspace}"
  = Returns "Workspace: project"
  /\ fill Sample.constants Sample.runtime Sample.util Sample.config More.loose_file
       Sample.editor "Workspace: {workspace}"
     = Returns "Workspace: No workspace".
Proof.
  split.
  - apply (workspace_token_value Sample.constants Sample.runtime Sample.util Sample.config
             More.folder_only Sample.editor "Workspace: {workspace}" "project").
    + right. left. split; [reflexivity|]. eexists. split; reflexivity.
    + reflexivity.
    + reflexivity.
  - apply (workspace_token_value Sample.constants Sample.runtime Sample.util Sample.config
             More.loose_file Sample.editor "Workspace: {workspace}" "No workspace").
    + right. right. repeat split; reflexivity.
    + reflexivity.
    + reflexivity.
Defined.

(** X14.  The workspace-and-folder token gives way to the workspace name,
    " - " and the folder name; the folder part is left out when the folder
    name is the empty-value text.  With neither workspace nor folder both
    names are the no-workspace text, which then shows twice. *)
Theorem workspace_and_folder_value K rt util config host editor raw :
  free_of (scanned_tokens K
           ++ [ REPLACE_KEYS.FullDirName (KEYS K); REPLACE_KEYS.FileName (KEYS K);
                REPLACE_KEYS.DirName (KEYS K); REPLACE_KEYS.Workspace (KEYS K);
                REPLACE_KEYS.WorkspaceFolder (KEYS K) ]) raw = true ->
  free_of [ REPLACE_KEYS.LanguageLowerCase (KEYS K); REPLACE_KEYS.LanguageTitleCase (KEYS K);
            REPLACE_KEYS.LanguageUpperCase (KEYS K) ]
    (JS.replace raw (REPLACE_KEYS.WorkspaceAndFolder (KEYS K))
       (workspace_and_folder K config host editor)) = true ->
  fill K rt util config host editor raw
  = Returns (JS.replace raw (REPLACE_KEYS.WorkspaceAndFolder (KEYS K))
               (workspace_and_folder K config host editor))
  /\ (folder_shown K config host editor = EMPTY K ->
      workspace_and_folder K config host editor = workspace_shown K config host editor)
  /\ (folder_shown K config host editor <> EMPTY K ->
      workspace_and_folder K config host editor
      = workspace_shown K config host editor ++ " - " ++ folder_shown K config host editor)
  /\ (workspace_name host = None ->
      getWorkspaceFolder host (TextDocument.uri (document editor)) = None ->
      no_workspace_text K config <> EMPTY K ->
      workspace_and_folder K config host editor
      = no_workspace_text K config ++ " - " ++ no_workspace_text K config).
Proof.
  intros H Hafter. apply free_of_app in H. destruct H as [Hs Hf]. absent Hf.
  split; [|split; [|split]].
  - rewrite fill_unfold, (full_dir_step_absent K rt host editor raw) by assumption.
    rewrite (fileDetails_unscanned K rt host raw _ _ Hs). cbn [bind]. f_equal.
    unfold folded_values.
    apply (replace_each_single
             [ (REPLACE_KEYS.FileName (KEYS K),
                basename rt (TextDocument.fileName (document editor)));
               (REPLACE_KEYS.DirName (KEYS K), dir_name rt editor);
               (REPLACE_KEYS.Workspace (KEYS K), workspace_shown K config host editor);
               (REPLACE_KEYS.WorkspaceFolder (KEYS K), folder_shown K config host editor) ]).
    + unfold free_of. cbn [map fst forallb]. rewrite Habs0, Habs1, Habs2, Habs3. reflexivity.
    + exact Hafter.
  - intros Hempty. unfold workspace_and_folder. rewrite Hempty, String.eqb_refl.
    apply StringFacts.append_nil_r.
  - intros Hne. unfold workspace_and_folder. apply String.eqb_neq in Hne. rewrite Hne.
    reflexivity.
  - intros Hws Hfolder Hne. unfold workspace_and_folder, workspace_shown, folder_shown.
    rewrite Hws, Hfolder. apply String.eqb_neq in Hne. rewrite Hne. reflexivity.
Qed.

Lemma workspace_and_folder_value_witness :
  fill Sample.constants Sample.runtime Sample.util Sample.config More.loose_file
    Sample.editor "{workspace_and_folder}"
  = Returns "No workspace - No workspace"
  /\ fill Sample.constants Sample.runtime Sample.util More.empty_config More.loose_file
       Sample.editor "<{workspace_and_folder}>"
     = Returns "<  >".
Proof.
  split.
  - destruct (workspace_and_folder_value Sample.constants Sample.runtime Sample.util
                Sample.config More.loose_file Sample.editor "{workspace_and_folder}"
                eq_refl eq_refl) as (-> & _).
    reflexivity.
  - destruct (workspace_and_folder_value Sample.constants Sample.runtime Sample.util
                More.empty_config More.loose_file Sample.editor "<{workspace_and_folder}>"
                eq_refl eq_refl) as (-> & _).
    reflexivity.
Defined.

(** ** The file stat *)

Lemma fileSize_step_throws K rt host raw doc e :
  fileSize_step K rt host raw doc = Throws e <->
  e = FileSystemError
  /\ JS.includes raw (REPLACE_KEYS.FileSize (KEYS K)) = true
  /\ fs_stat host (TextDocument.uri doc) = None.
Proof.
  unfold fileSize_step. split.
  - destruct (JS.includes _ _); [|discriminate].
    destruct (fs_stat host (TextDocument.uri doc)) as [size|].
    + intros H. apply bind_Throws in H. destruct H as [H|(text & _ & H)]; [|discriminate].
      exfalso. exact (file_size_text_never_throws K rt size e H).
    + intros [= <-]. repeat split.
  - intros (-> & -> & ->). reflexivity.
Qed.

(** X15.  The file is only stat'ed for the file-size token: for a template
    without the tokens scanned before it, [fileDetails] passes on the
    rejection of the stat exactly when the file-size token occurs and the
    stat is rejected; a rejected stat does no harm to a template without
    the token. *)
Theorem stat_rejection_iff K rt host raw doc sel :
  free_of [ REPLACE_KEYS.TotalLines (KEYS K); REPLACE_KEYS.CurrentLine (KEYS K);
            REPLACE_KEYS.CurrentColumn (KEYS K) ] raw = true ->
  fileDetails K rt host raw doc sel = Throws FileSystemError
  <-> JS.includes raw (REPLACE_KEYS.FileSize (KEYS K)) = true
      /\ fs_stat host (TextDocument.uri doc) = None.
Proof.
  intros H. absent H.
  assert (Hfd : fileDetails K rt host raw doc sel
                = (mid <- fileSize_step K rt host raw doc ;;
                   gitRepoName_step K host (gitBranch_step K host mid))).
  { unfold fileDetails, totalLines_step, currentLine_step, currentColumn_step.
    rewrite Habs, Habs0, Habs1. reflexivity. }
  rewrite Hfd. split.
  - intros Hthrow. apply bind_Throws in Hthrow. destruct Hthrow as [Hthrow|(mid & _ & Hthrow)].
    + apply fileSize_step_throws in Hthrow. tauto.
    + apply gitRepoName_step_throws in Hthrow. destruct Hthrow as [Hthrow _]. discriminate.
  - intros [Hin Hstat].
    assert (Hstep : fileSize_step K rt host raw doc = Throws FileSystemError)
      by (apply fileSize_step_throws; auto).
    rewrite Hstep. reflexivity.
Qed.

Lemma stat_rejection_iff_witness :
  fileDetails Sample.constants Sample.runtime Cases.unsaved "{file_size}"
    Sample.doc (selection Sample.editor) = Throws FileSystemError
  /\ fileDetails Sample.constants Sample.runtime Cases.unsaved "{git_branch}"
       Sample.doc (selection Sample.editor) <> Throws FileSystemError.
Proof.
  split.
  - apply (stat_rejection_iff Sample.constants Sample.runtime Cases.unsaved "{file_size}"
             Sample.doc (selection Sample.editor) eq_refl).
    split; reflexivity.
  - intros H.
    apply (stat_rejection_iff Sample.constants Sample.runtime Cases.unsaved "{git_branch}"
             Sample.doc (selection Sample.editor) eq_refl) in H.
    destruct H as [H _]. discriminate.
Defined.

(** ** Replacement patterns in values *)

Lemma GetSubstitution_matched matched before after pre post :
  dollar_free pre = true -> dollar_free post = true ->
  JS.GetSubstitution matched before after (pre ++ "$&" ++ post) = pre ++ matched ++ post.
Proof.
  intros Hpre Hpost. induction pre as [|c pre IH].
  - simpl. rewrite JSFacts.GetSubstitution_plain by assumption. reflexivity.
  - simpl in Hpre. apply andb_true_iff in Hpre. destruct Hpre as [Hc Hpre].
    apply negb_true_iff in Hc. cbn [String.append JS.GetSubstitution]. rewrite Hc.
    f_equal. apply IH. exact Hpre.
Qed.

Lemma replace_matched s token pre post :
  dollar_free pre = true -> dollar_free post = true ->
  JS.replace s token (pre ++ "$&" ++ post) = replace_first s token (pre ++ token ++ post).
Proof.
  intros Hpre Hpost. unfold JS.replace, replace_first.
  destruct (JS.indexOf s token); [|reflexivity].
  rewrite GetSubstitution_matched by assumption. reflexivity.
Qed.

(** X16.  Values are handed to [replace] as replacement patterns, not as
    plain text: a file name that holds [$&] shows the file-name token
    itself where the [$&] stands. *)
Theorem file_name_pattern_expanded K rt util config host editor raw pre post :
  basename rt (TextDocument.fileName (document editor)) = pre ++ "$&" ++ post ->
  dollar_free pre = true ->
  dollar_free post = true ->
  free_of (scanned_tokens K ++ [REPLACE_KEYS.FullDirName (KEYS K)]) raw = true ->
  free_of (tl (tl (folded_tokens K)))
    (replace_first raw (REPLACE_KEYS.FileName (KEYS K))
       (pre ++ REPLACE_KEYS.FileName (KEYS K) ++ post)) = true ->
  fill K rt util config host editor raw
  = Returns (replace_first raw (REPLACE_KEYS.FileName (KEYS K))
               (pre ++ REPLACE_KEYS.FileName (KEYS K) ++ post)).
Proof.
  intros Hname Hpre Hpost H Hafter. apply free_of_app in H. destruct H as [Hs Hf]. absent Hf.
  rewrite fill_unfold, (full_dir_step_absent K rt host editor raw) by assumption.
  rewrite (fileDetails_unscanned K rt host raw _ _ Hs). cbn [bind]. f_equal.
  unfold folded_values. rewrite Hname.
  rewrite <- (replace_matched raw (REPLACE_KEYS.FileName (KEYS K)) pre post Hpre Hpost).
  rewrite <- (replace_matched raw (REPLACE_KEYS.FileName (KEYS K)) pre post Hpre Hpost) in Hafter.
  apply (replace_each_single []); [reflexivity | exact Hafter].
Qed.

Lemma file_name_pattern_expanded_witness :
  fill Sample.constants Sample.runtime Sample.util Sample.config More.pattern_host
    More.pattern_editor "Editing {file_name}"
  = Returns "Editing [{file_name}].ts".
Proof.
  apply (file_name_pattern_expanded Sample.constants Sample.runtime Sample.util Sample.config
           More.pattern_host More.pattern_editor "Editing {file_name}" "[" "].ts");
    reflexivity.
Defined.

(** ** File name and language *)

(** X17.  The file-name token gives way to the base name of the file, and
    only where it occurs first: a second file-name token stays in the
    text. *)
Theorem file_name_value K rt util config host editor raw :
  dollar_free (basename rt (TextDocument.fileName (document editor))) = true ->
  free_of (scanned_tokens K ++ [REPLACE_KEYS.FullDirName (KEYS K)]) raw = true ->
  free_of (tl (tl (folded_tokens K)))
    (replace_first raw (REPLACE_KEYS.FileName (KEYS K))
       (basename rt (TextDocument.fileName (document editor)))) = true ->
  fill K rt util config host editor raw
  = Returns (replace_first raw (REPLACE_KEYS.FileName (KEYS K))
               (basename rt (TextDocument.fileName (document editor)))).
Proof.
  intros Hname H Hafter. apply free_of_app in H. destruct H as [Hs Hf]. absent Hf.
  rewrite fill_unfold, (full_dir_step_absent K rt host editor raw) by assumption.
  rewrite (fileDetails_unscanned K rt host raw _ _ Hs). cbn [bind]. f_equal.
  unfold folded_values.
  rewrite <- (replace_is_replace_first raw (REPLACE_KEYS.FileName (KEYS K)) _ Hname).
  rewrite <- (replace_is_replace_first raw (REPLACE_KEYS.FileName (KEYS K)) _ Hname) in Hafter.
  apply (replace_each_single []); [reflexivity | exact Hafter].
Qed.

Lemma file_name_value_witness :
  fill Sample.constants Sample.runtime Sample.util Sample.config Sample.editing Sample.editor
    "{file_name} ({file_name})"
  = Returns "main.ts ({file_name})".
Proof.
  apply (file_name_value Sample.constants Sample.runtime Sample.util Sample.config
           Sample.editing Sample.editor "{file_name} ({file_name})");
    reflexivity.
Defined.

(** X18.  The three language tokens are the last to be replaced, by the
    lower-, title- and upper-case forms of the file icon of the document:
    in title and subtitle they are filled in exactly as in the large-image
    text. *)
Theorem language_tokens_value K rt util config host editor raw :
  free_of (scanned_tokens K
           ++ [ REPLACE_KEYS.FullDirName (KEYS K); REPLACE_KEYS.FileName (KEYS K);
                REPLACE_KEYS.DirName (KEYS K); REPLACE_KEYS.Workspace (KEYS K);
                REPLACE_KEYS.WorkspaceFolder (KEYS K);
                REPLACE_KEYS.WorkspaceAndFolder (KEYS K) ]) raw = true ->
  fill K rt util config host editor raw
  = Returns
      (JS.replace
         (JS.replace
            (JS.replace raw (REPLACE_KEYS.LanguageLowerCase (KEYS K))
               (toLower util (resolveFileIcon util (document editor))))
            (REPLACE_KEYS.LanguageTitleCase (KEYS K))
            (toTitle util (resolveFileIcon util (document editor))))
         (REPLACE_KEYS.LanguageUpperCase (KEYS K))
         (toUpper util (resolveFileIcon util (document editor))))
  /\ fill K rt util config host editor raw
     = Returns (large_image_text K util (fun _ => raw) (document editor)).
Proof.
  intros H. apply free_of_app in H. destruct H as [Hs Hf]. absent Hf.
  assert (Hfill : fill K rt util config host editor raw
                  = Returns (large_image_text K util (fun _ => raw) (document editor))).
  { rewrite fill_unfold, (full_dir_step_absent K rt host editor raw) by assumption.
    rewrite (fileDetails_unscanned K rt host raw _ _ Hs). cbn [bind]. f_equal.
    unfold folded_values, replace_each. cbn [fold_left fst snd].
    repeat (rewrite (JSFacts.replace_absent raw) by assumption). reflexivity. }
  split; exact Hfill.
Qed.

Lemma language_tokens_value_witness :
  fill Sample.constants Sample.runtime Sample.util Sample.config Sample.editing Sample.editor
    "Editing a {LANG} file"
  = Returns "Editing a typescript file".
Proof.
  destruct (language_tokens_value Sample.constants Sample.runtime Sample.util Sample.config
              Sample.editing Sample.editor "Editing a {LANG} file" eq_refl) as [-> _].
  reflexivity.
Defined.
